(** * Authentication and authorization core of the Express application

    A shallow embedding of [src/index.js]: the two access-control gates, the
    signup and login handlers, the admin page, the promote and demote routes
    and logout, over an explicit user collection and session store.

    The application is a thin layer over third-party packages.  What the
    handlers ask of them is modelled next to each call:
    - Joi: the rules the two schemas use ([string], [required], [min], [max],
      [email], [valid], [default], and the refusal of unknown keys);
    - bcrypt: an interface with its one contract, a digest verifies against
      the plaintext it was made from;
    - mongoose: the collection in natural (insertion) order, [findOne] as
      first match, [updateOne] on the first match after the filter's [_id]
      is cast to an ObjectId;
    - express-session: [req.session.user], stored per session id. *)

From stdpp Require Import base option list strings gmap pretty.
From Stdlib Require Import ZArith Ascii String.

Local Open Scope string_scope.

(** ** Values posted by a form *)

(** [express.urlencoded({ extended: true })] parses the body with qs: a field
    is a string, or an array or nested object when its name carries
    brackets.  The schemas only ever accept strings. *)
Inductive formval : Type :=
  | FStr (s : string)
  | FOther.

(** [req.body], keys in the order the form sent them. *)
Definition Body : Type := list (string * formval).

Fixpoint body_get (k : string) (b : Body) : option formval :=
  match b with
  | [] => None
  | (k', v) :: rest => if String.eqb k k' then Some v else body_get k rest
  end.

(** ** The external packages the handlers call *)

(** What the model takes from Joi's address checker and from bcrypt.  The
    digest carries its salt, so [bcrypt_hash] takes the salt drawn for the
    call as an argument. *)
Class Platform : Type := {
  email_syntax : string -> bool;
  bcrypt_hash : string -> string -> string;
  bcrypt_compare : string -> string -> bool;
  bcrypt_compare_hash :
    forall salt p, bcrypt_compare p (bcrypt_hash salt p) = true
}.

(** ** Joi *)

Inductive joi_error : Type :=
  | any_required (key : string)
  | string_base (key : string)
  | string_empty (key : string)
  | string_min (key : string) (limit : nat)
  | string_max (key : string) (limit : nat)
  | string_email (key : string)
  | any_only (key : string) (valids : list string)
  | object_unknown (key : string).

Definition dq : string := String "034"%char EmptyString.

Definition quoted (key : string) : string := dq ++ key ++ dq.

Fixpoint comma_sep (l : list string) : string :=
  match l with
  | [] => EmptyString
  | [x] => x
  | x :: rest => x ++ ", " ++ comma_sep rest
  end.

(** [error.details[0].message] *)
Definition message (e : joi_error) : string :=
  match e with
  | any_required k => quoted k ++ " is required"
  | string_base k => quoted k ++ " must be a string"
  | string_empty k => quoted k ++ " is not allowed to be empty"
  | string_min k n =>
      quoted k ++ " length must be at least " ++ pretty n ++ " characters long"
  | string_max k n =>
      quoted k ++ " length must be less than or equal to " ++ pretty n
        ++ " characters long"
  | string_email k => quoted k ++ " must be a valid email"
  | any_only k vs => quoted k ++ " must be one of [" ++ comma_sep vs ++ "]"
  | object_unknown k => quoted k ++ " is not allowed"
  end.

Inductive rule : Type :=
  | Min (limit : nat)
  | Max (limit : nat)
  | Email.

Section Joi.
Context `{Platform}.

Definition check_rule (key : string) (s : string) (r : rule) : option joi_error :=
  match r with
  | Min n => if Nat.ltb (String.length s) n then Some (string_min key n) else None
  | Max n => if Nat.ltb n (String.length s) then Some (string_max key n) else None
  | Email => if email_syntax s then None else Some (string_email key)
  end.

(** Rules run in the order the schema chains them; the first failure is
    the one reported. *)
Fixpoint check_rules (key : string) (s : string) (rs : list rule) : option joi_error :=
  match rs with
  | [] => None
  | r :: rest =>
      match check_rule key s r with
      | Some e => Some e
      | None => check_rules key s rest
      end
  end.

(** [Joi.string().<rules>.required()]: a missing key, a value that is not
    a string and the empty string are each refused before any rule runs. *)
Definition Joi_string_required (key : string) (rs : list rule)
    (v : option formval) : joi_error + string :=
  match v with
  | None => inl (any_required key)
  | Some FOther => inl (string_base key)
  | Some (FStr s) =>
      if String.eqb s EmptyString then inl (string_empty key)
      else match check_rules key s rs with
           | Some e => inl e
           | None => inr s
           end
  end.

(** [Joi.string().valid(...).default(d)]: a missing key takes the default;
    a value that is present must be one of the listed ones. *)
Definition Joi_string_valid_default (key : string) (valids : list string)
    (d : string) (v : option formval) : joi_error + string :=
  match v with
  | None => inr d
  | Some (FStr s) =>
      if existsb (String.eqb s) valids then inr s else inl (any_only key valids)
  | Some FOther => inl (any_only key valids)
  end.

(** [Joi.object({...})] refuses a key its schema does not name, after the
    named keys were checked. *)
Fixpoint Joi_object_unknown (known : list string) (b : Body) : option joi_error :=
  match b with
  | [] => None
  | (k, _) :: rest =>
      if existsb (String.eqb k) known then Joi_object_unknown known rest
      else Some (object_unknown k)
  end.
End Joi.

(** A validation either stops with the first error or yields the value. *)
Definition joi_bind {A B : Type} (x : joi_error + A) (f : A -> joi_error + B)
    : joi_error + B :=
  match x with
  | inl e => inl e
  | inr a => f a
  end.

Notation "'let*' x := c 'in' k" := (joi_bind c (fun x => k))
  (at level 10, x name, c at level 100, k at level 200).

Definition joi_check (c : option joi_error) : joi_error + unit :=
  match c with
  | Some e => inl e
  | None => inr tt
  end.

(** ** The user collection *)

(** A document id is twelve bytes, kept here as the number they spell. *)
Definition ObjectId : Type := N.

Definition hex_digit (c : ascii) : option N :=
  let n := N_of_ascii c in
  if (48 <=? n)%N && (n <=? 57)%N then Some (n - 48)%N
  else if (97 <=? n)%N && (n <=? 102)%N then Some (n - 87)%N
  else if (65 <=? n)%N && (n <=? 70)%N then Some (n - 55)%N
  else None.

Fixpoint hex_value (s : string) (acc : N) : option N :=
  match s with
  | EmptyString => Some acc
  | String c rest =>
      match hex_digit c with
      | Some d => hex_value rest (16 * acc + d)%N
      | None => None
      end
  end.

(** Every character of the string is a hex digit. *)
Fixpoint all_hex (s : string) : bool :=
  match s with
  | EmptyString => true
  | String c rest =>
      match hex_digit c with
      | Some _ => all_hex rest
      | None => false
      end
  end.

(** The cast mongoose applies to a filter's [_id] before the query is sent:
    a string of twenty-four hex digits becomes the ObjectId they spell; for
    any other string, one of twelve characters included, the cast throws. *)
Definition castObjectId (s : string) : option ObjectId :=
  if Nat.eqb (String.length s) 24 then hex_value s 0
  else None.

(** What a handler can throw without catching it. *)
Inductive exception : Type :=
  | CastError (value : string)
  | TypeError.

Module User.
(** [userSchema], with the [_id] mongoose adds to every document. *)
Record t : Type := mk {
  _id : ObjectId;
  name : string;
  email : string;
  password : string;
  user_type : string
}.

(** [User.create(doc)]: the document is stored after the ones already
    there, under the [_id] the driver draws for it, and returned. *)
Definition create (oid : ObjectId) (n e p ut : string) (db : list t)
    : t * list t :=
  let u := mk oid n e p ut in
  (u, (db ++ [u])%list).

(** [User.findOne({ email })]: the first document with that email. *)
Fixpoint findOne (e : string) (db : list t) : option t :=
  match db with
  | [] => None
  | u :: rest => if String.eqb (email u) e then Some u else findOne e rest
  end.

(** [User.find()] *)
Definition find (db : list t) : list t := db.

(** [{ $set: { user_type } }] on one document. *)
Definition set_user_type (ut : string) (u : t) : t :=
  mk (_id u) (name u) (email u) (password u) ut.

(** [updateOne] changes the first document the filter matches and no
    other; with no match it changes nothing and reports no error. *)
Fixpoint update_first (oid : ObjectId) (ut : string) (db : list t) : list t :=
  match db with
  | [] => []
  | u :: rest =>
      if N.eqb (_id u) oid then set_user_type ut u :: rest
      else u :: update_first oid ut rest
  end.

(** [User.updateOne({ _id: id }, { $set: { user_type } })] *)
Definition updateOne (id : string) (ut : string) (db : list t)
    : exception + list t :=
  match castObjectId id with
  | None => inl (CastError id)
  | Some oid => inr (update_first oid ut db)
  end.
End User.

(** ** Sessions, requests and responses *)

Module SessionUser.
(** The object the handlers store in [req.session.user]. *)
Record t : Type := mk {
  name : string;
  email : string;
  user_type : string
}.
End SessionUser.

Inductive locals : Type :=
  | no_locals
  | user_local (user : option SessionUser.t)
  | cats_locals (user : option SessionUser.t) (images : list string)
  | users_local (users : list User.t).

(** What a handler does with [res].  [unhandled] stands for a rejected
    promise the handler does not catch: no response is written by it. *)
Inductive response : Type :=
  | render (status : nat) (view : string) (l : locals)
  | redirect (url : string)
  | send (html : string)
  | unhandled (e : exception).

Record Request : Type := mkRequest {
  session_user : option SessionUser.t;   (* req.session.user *)
  body : Body;                           (* req.body *)
  params_id : string                     (* req.params.id *)
}.

(** The outcome of a handler: the response, the collection and
    [req.session.user] as the handler leaves them. *)
Record Outcome : Type := mkOutcome {
  res : response;
  users : list User.t;
  session : option SessionUser.t
}.

Definition retry (path : string) : string :=
  "<a href=" ++ dq ++ path ++ dq ++ ">Try again</a>".

Definition paragraph (text : string) : string := "<p>" ++ text ++ "</p>".

(** ** Authentication middleware *)

Inductive gate : Type :=
  | next
  | stop (r : response).

Definition isAuthenticated (req : Request) : gate :=
  match session_user req with
  | Some _ => next
  | None => stop (redirect "/login")
  end.

Definition isAdmin (req : Request) : gate :=
  match session_user req with
  | Some u =>
      if String.eqb (SessionUser.user_type u) "admin" then next
      else stop (render 403 "403" no_locals)
  | None => stop (render 403 "403" no_locals)
  end.

(** ** Routes *)

Record SignupValue : Type := mkSignupValue {
  sv_name : string;
  sv_email : string;
  sv_password : string;
  sv_user_type : string
}.

Record LoginValue : Type := mkLoginValue {
  lv_email : string;
  lv_password : string
}.

Definition images : list string := ["cat1.jpg"; "cat2.jpg"; "cat3.jpg"].

Section Routes.
Context `{Platform}.

(** The schema of [POST /signup]. *)
Definition signup_schema (b : Body) : joi_error + SignupValue :=
  let* n := Joi_string_required "name" [Max 30] (body_get "name" b) in
  let* e := Joi_string_required "email" [Email] (body_get "email" b) in
  let* p := Joi_string_required "password" [Min 5; Max 30] (body_get "password" b) in
  let* ut := Joi_string_valid_default "user_type" ["user"; "admin"] "user"
               (body_get "user_type" b) in
  let* _ := joi_check
              (Joi_object_unknown ["name"; "email"; "password"; "user_type"] b) in
  inr (mkSignupValue n e p ut).

(** The schema of [POST /login]. *)
Definition login_schema (b : Body) : joi_error + LoginValue :=
  let* e := Joi_string_required "email" [Email] (body_get "email" b) in
  let* p := Joi_string_required "password" [Min 5; Max 30] (body_get "password" b) in
  let* _ := joi_check (Joi_object_unknown ["email"; "password"] b) in
  inr (mkLoginValue e p).

Definition get_index (db : list User.t) (req : Request) : Outcome :=
  mkOutcome (render 200 "index" (user_local (session_user req))) db (session_user req).

Definition get_signup (db : list User.t) (req : Request) : Outcome :=
  mkOutcome (render 200 "signup" no_locals) db (session_user req).

(** [oid] is the id the driver draws for the new document and [salt] the
    salt bcrypt draws for the digest. *)
Definition post_signup (oid : ObjectId) (salt : string)
    (db : list User.t) (req : Request) : Outcome :=
  match signup_schema (body req) with
  | inl error =>
      mkOutcome (send (paragraph (message error) ++ retry "/signup"))
        db (session_user req)
  | inr value =>
      let hashedPassword := bcrypt_hash salt (sv_password value) in
      let (newUser, db') :=
        User.create oid (sv_name value) (sv_email value) hashedPassword
          (sv_user_type value) db in
      mkOutcome (redirect "/members") db'
        (Some (SessionUser.mk (User.name newUser) (User.email newUser)
                 (User.user_type newUser)))
  end.

Definition get_login (db : list User.t) (req : Request) : Outcome :=
  mkOutcome (render 200 "login" no_locals) db (session_user req).

(** Once the schema has passed, [req.body.email] and [req.body.password]
    are the strings of the validated value (see [login_schema_reads_body]). *)
Definition post_login (db : list User.t) (req : Request) : Outcome :=
  match login_schema (body req) with
  | inl error =>
      mkOutcome (send (paragraph (message error) ++ retry "/login"))
        db (session_user req)
  | inr value =>
      match User.findOne (lv_email value) db with
      | None =>
          mkOutcome (send (paragraph "User not found" ++ retry "/login"))
            db (session_user req)
      | Some user =>
          if bcrypt_compare (lv_password value) (User.password user) then
            mkOutcome (redirect "/members") db
              (Some (SessionUser.mk (User.name user) (User.email user)
                       (User.user_type user)))
          else
            mkOutcome (send (paragraph "Invalid password" ++ retry "/login"))
              db (session_user req)
      end
  end.

Definition members (db : list User.t) (req : Request) : Outcome :=
  mkOutcome (render 200 "cats" (cats_locals (session_user req) images))
    db (session_user req).

(** The handler of [/admin] reads [req.session.user.user_type] without a
    guard of its own; it is only ever mounted behind [isAuthenticated]. *)
Definition admin (db : list User.t) (req : Request) : Outcome :=
  match session_user req with
  | None => mkOutcome (unhandled TypeError) db None
  | Some u =>
      if negb (String.eqb (SessionUser.user_type u) "admin") then
        mkOutcome (render 200 "index" (user_local (session_user req)))
          db (session_user req)
      else
        mkOutcome (render 200 "admin" (users_local (User.find db)))
          db (session_user req)
  end.

Definition set_role (ut : string) (db : list User.t) (req : Request) : Outcome :=
  match User.updateOne (params_id req) ut db with
  | inl e => mkOutcome (unhandled e) db (session_user req)
  | inr db' => mkOutcome (redirect "/admin") db' (session_user req)
  end.

Definition promote := set_role "admin".
Definition demote := set_role "user".

(** [req.session.destroy(...)] *)
Definition get_logout (db : list User.t) (req : Request) : Outcome :=
  mkOutcome (redirect "/") db None.

Definition not_found (db : list User.t) (req : Request) : Outcome :=
  mkOutcome (render 404 "404" no_locals) db (session_user req).

(** [app.get(path, gate1, gate2, handler)]: the gates run in order and the
    first that does not call [next()] ends the request. *)
Fixpoint guarded (gates : list (Request -> gate))
    (h : list User.t -> Request -> Outcome)
    (db : list User.t) (req : Request) : Outcome :=
  match gates with
  | [] => h db req
  | g :: rest =>
      match g req with
      | next => guarded rest h db req
      | stop r => mkOutcome r db (session_user req)
      end
  end.

Definition get_members := guarded [isAuthenticated] members.
Definition get_admin := guarded [isAuthenticated] admin.
Definition get_promote := guarded [isAuthenticated; isAdmin] promote.
Definition get_demote := guarded [isAuthenticated; isAdmin] demote.
End Routes.

(** ** The application as a whole *)

(** A request as the router sees it.  The routes that read the body, the
    [:id] parameter or a random draw carry it. *)
Inductive route : Type :=
  | GET_index
  | GET_signup
  | POST_signup (b : Body) (oid : ObjectId) (salt : string)
  | GET_login
  | POST_login (b : Body)
  | GET_members
  | GET_admin
  | GET_promote (id : string)
  | GET_demote (id : string)
  | GET_logout
  | unmatched.

(** The two collections behind the application: the users, and the sessions
    express-session keeps, one [req.session.user] per session id.  With
    [saveUninitialized: false] a session the handlers never wrote to is not
    stored. *)
Record Server : Type := mkServer {
  collection : list User.t;
  sessions : gmap N SessionUser.t
}.

Section App.
Context `{Platform}.

Definition handle (r : route) (db : list User.t) (su : option SessionUser.t)
    : Outcome :=
  match r with
  | GET_index => get_index db (mkRequest su [] EmptyString)
  | GET_signup => get_signup db (mkRequest su [] EmptyString)
  | POST_signup b oid salt => post_signup oid salt db (mkRequest su b EmptyString)
  | GET_login => get_login db (mkRequest su [] EmptyString)
  | POST_login b => post_login db (mkRequest su b EmptyString)
  | GET_members => get_members db (mkRequest su [] EmptyString)
  | GET_admin => get_admin db (mkRequest su [] EmptyString)
  | GET_promote id => get_promote db (mkRequest su [] id)
  | GET_demote id => get_demote db (mkRequest su [] id)
  | GET_logout => get_logout db (mkRequest su [] EmptyString)
  | unmatched => not_found db (mkRequest su [] EmptyString)
  end.

(** What the session middleware does when the response ends: the session
    is written back under its id, or removed after [destroy]. *)
Definition save (sid : N) (su : option SessionUser.t)
    (m : gmap N SessionUser.t) : gmap N SessionUser.t :=
  match su with
  | Some u => <[sid := u]> m
  | None => delete sid m
  end.

(** One request: the middleware loads the session of the cookie's id, the
    route runs, the middleware stores the session. *)
Definition serve (sid : N) (r : route) (srv : Server) : response * Server :=
  let o := handle r (collection srv) (sessions srv !! sid) in
  (res o, mkServer (users o) (save sid (session o) (sessions srv))).

Fixpoint run (trace : list (N * route)) (srv : Server) : Server :=
  match trace with
  | [] => srv
  | (sid, r) :: rest => run rest (snd (serve sid r srv))
  end.

(** The routes that assign [req.session.user] or destroy the session. *)
Definition writes_session (r : route) : bool :=
  match r with
  | POST_signup _ _ _ | POST_login _ | GET_logout => true
  | _ => false
  end.
End App.

(** ** The session manager *)

Module SessionManager.
(** Modelled from the spec: the time to live of a session, one hour, as
    the [maxAge] the source passes for the cookie (milliseconds). *)
Definition TTL : Z := 1000 * 60 * 60.

(** Modelled from the spec: a stored session is the snapshot with its
    absolute expiry (section 3, Session); express-session and
    connect-mongo, which keep it, are not part of the repository. *)
Record entry : Type := mkEntry {
  snapshot : SessionUser.t;
  expiry : Z
}.

(** Modelled from the spec: create_session stores the snapshot keyed by
    the token with expiry = now + TTL and returns the token (section 4.3);
    the random token is the argument [token]. *)
Definition create_session (now : Z) (token : N) (snap : SessionUser.t)
    (st : gmap N entry) : gmap N entry * N :=
  (<[token := mkEntry snap (now + TTL)]> st, token).

(** Modelled from the spec: load_session returns none if the token is
    absent, unknown or expired; an expired session is not renewed
    (section 4.3). *)
Definition load_session (now : Z) (token : option N) (st : gmap N entry)
    : option SessionUser.t :=
  match token with
  | None => None
  | Some tok =>
      match st !! tok with
      | None => None
      | Some e => if (now <? expiry e)%Z then Some (snapshot e) else None
      end
  end.

(** Modelled from the spec: destroy_session removes the session record
    regardless of prior existence (section 4.3). *)
Definition destroy_session (token : N) (st : gmap N entry) : gmap N entry :=
  delete token st.

(** Modelled from the spec: the operations a session store goes through
    (the state machine of section 4.3); loading leaves the store as it
    is. *)
Inductive op : Type :=
  | Create (now : Z) (token : N) (snap : SessionUser.t)
  | Load (now : Z) (token : option N)
  | Destroy (token : N).

(** Modelled from the spec: the effect of one operation on the store. *)
Definition step (o : op) (st : gmap N entry) : gmap N entry :=
  match o with
  | Create now tok snap => fst (create_session now tok snap st)
  | Load _ _ => st
  | Destroy tok => destroy_session tok st
  end.

(** Modelled from the spec: a run of operations, oldest first. *)
Fixpoint steps (os : list op) (st : gmap N entry) : gmap N entry :=
  match os with
  | [] => st
  | o :: rest => steps rest (step o st)
  end.

(** Modelled from the spec: whether an operation creates the session of
    the token. *)
Definition creates (tok : N) (o : op) : bool :=
  match o with
  | Create _ tok' _ => N.eqb tok tok'
  | _ => false
  end.
End SessionManager.

(** ** A platform to run the handlers on *)

(** The interface [Platform] has instances: this one keeps the plaintext
    after the salt and accepts an address that holds an at sign.  It serves
    to evaluate the handlers on concrete requests and has none of bcrypt's
    or Joi's other properties. *)
Fixpoint ends_with (p h : string) : bool :=
  String.eqb p h ||
  match h with
  | EmptyString => false
  | String _ rest => ends_with p rest
  end.

Fixpoint has_at (s : string) : bool :=
  match s with
  | EmptyString => false
  | String c rest => Ascii.eqb c "@"%char || has_at rest
  end.

Definition sample_platform : Platform.
Proof.
  refine {| email_syntax := has_at;
            bcrypt_hash := fun salt p => salt ++ p;
            bcrypt_compare := ends_with |}.
  intros salt p. induction salt as [|c salt IH].
  - change (EmptyString ++ p) with p.
    destruct p; cbn [ends_with]; rewrite String.eqb_refl; reflexivity.
  - change (String c salt ++ p) with (String c (salt ++ p)).
    cbn [ends_with]. rewrite IH. apply orb_true_r.
Defined.

(** ** What the properties are stated with *)

Section Statements.
Context `{Platform}.

(** A string meets a rule of a schema. *)
Definition rule_holds (s : string) (r : rule) : Prop :=
  match r with
  | Min n => n <= String.length s
  | Max n => String.length s <= n
  | Email => email_syntax s = true
  end.

(** The fields the signup schema names. *)
Definition signup_keys : list string := ["name"; "email"; "password"; "user_type"].

(** The role field is absent, or one of the two roles. *)
Definition role_field_ok (b : Body) : Prop :=
  body_get "user_type" b = None \/
  body_get "user_type" b = Some (FStr "user") \/
  body_get "user_type" b = Some (FStr "admin").

(** The inputs the sentence on signup validation describes: name present
    with at most 30 characters, email present with valid syntax, password
    present with 5 to 30 characters, role absent or one of the two. *)
Definition signup_input_as_claimed (b : Body) : Prop :=
  (exists n, body_get "name" b = Some (FStr n) /\ String.length n <= 30) /\
  (exists e, body_get "email" b = Some (FStr e) /\ email_syntax e = true) /\
  (exists p, body_get "password" b = Some (FStr p) /\
             5 <= String.length p <= 30) /\
  role_field_ok b.

(** The inputs the schema lets through: as above, and the name and the
    email are not empty, and the body has no field the schema does not
    name. *)
Definition signup_input_ok (b : Body) : Prop :=
  (exists n, body_get "name" b = Some (FStr n) /\ n <> EmptyString /\
             String.length n <= 30) /\
  (exists e, body_get "email" b = Some (FStr e) /\ e <> EmptyString /\
             email_syntax e = true) /\
  (exists p, body_get "password" b = Some (FStr p) /\
             5 <= String.length p <= 30) /\
  role_field_ok b /\
  (forall k v, In (k, v) b -> In k signup_keys).

(** The schema lets the body through. *)
Definition signup_accepts (b : Body) : Prop :=
  exists v, signup_schema b = inr v.

(** The body of a login form. *)
Definition login_body (e p : string) : Body :=
  [("email", FStr e); ("password", FStr p)].

(** The sentence on login after signup, as it is written. *)
Definition login_after_signup_as_claimed : Prop :=
  forall oid salt db req v su,
    signup_schema (body req) = inr v ->
    let o1 := post_signup oid salt db req in
    let o2 := post_login (users o1)
                (mkRequest su (login_body (sv_email v) (sv_password v))
                   EmptyString) in
    res o2 = redirect "/members" /\
    exists s, session o2 = Some s /\
              SessionUser.user_type s = sv_user_type v.

(** The sentence on a login with an unregistered email, as it is written. *)
Definition unknown_email_as_claimed : Prop :=
  forall db req e,
    body_get "email" (body req) = Some (FStr e) ->
    User.findOne e db = None ->
    post_login db req =
      mkOutcome (send (paragraph "User not found" ++ retry "/login"))
        db (session_user req).

(** The record a filter on [_id] selects: the first with that id. *)
Fixpoint lookup_id (oid : ObjectId) (db : list User.t) : option User.t :=
  match db with
  | [] => None
  | u :: rest => if N.eqb (User._id u) oid then Some u else lookup_id oid rest
  end.

(** [u'] is [u] up to its role, and is [u] itself unless [u] is the record
    the id [target] names. *)
Definition same_but_role (target : option ObjectId) (u u' : User.t) : Prop :=
  User._id u' = User._id u /\
  User.name u' = User.name u /\
  User.email u' = User.email u /\
  User.password u' = User.password u /\
  (target <> Some (User._id u) -> u' = u).

(** The sentence on promote and demote, as it is written: any [:id]. *)
Definition role_mutation_as_claimed : Prop :=
  forall db req u,
    session_user req = Some u -> SessionUser.user_type u = "admin" ->
    res (get_promote db req) = redirect "/admin" /\
    res (get_demote db req) = redirect "/admin".

(** A property of the requests of one session in a trace. *)
Definition for_session (sid : N) (P : route -> Prop) (x : N * route) : Prop :=
  fst x = sid -> P (snd x).

(** The routes that call [User.create] or [User.updateOne]. *)
Definition writes_users (r : route) : bool :=
  match r with
  | POST_signup _ _ _ | GET_promote _ | GET_demote _ => true
  | _ => false
  end.

(** The fields of a record that no route assigns after it is created. *)
Definition identity (u : User.t) : ObjectId * string * string * string :=
  (User._id u, User.name u, User.email u, User.password u).

(** A record whose fields are as the signup schema lets them through. *)
Definition schema_shaped (u : User.t) : Prop :=
  (User.user_type u = "user" \/ User.user_type u = "admin") /\
  User.name u <> EmptyString /\ String.length (User.name u) <= 30 /\
  User.email u <> EmptyString /\ email_syntax (User.email u) = true.

(** Some record of the collection has the name and the email of the
    snapshot. *)
Definition session_backed (db : list User.t) (s : SessionUser.t) : Prop :=
  exists u, In u db /\
    User.name u = SessionUser.name s /\ User.email u = SessionUser.email s.

(** Every stored session is backed by a record. *)
Definition sessions_backed (srv : Server) : Prop :=
  forall sid s, sessions srv !! sid = Some s -> session_backed (collection srv) s.

(** The snapshot the handlers take of a record. *)
Definition snapshot_of (u : User.t) : SessionUser.t :=
  SessionUser.mk (User.name u) (User.email u) (User.user_type u).

(** What a role route does to the application once both gates have let the
    request through: the update of the first record with the id and the
    redirect to /admin, or the cast error and no change. *)
Definition role_change (ut id : string) (srv : Server) : response * Server :=
  match castObjectId id with
  | Some oid =>
      (redirect "/admin",
       mkServer (User.update_first oid ut (collection srv)) (sessions srv))
  | None => (unhandled (CastError id), srv)
  end.

(** The routes mounted behind [isAuthenticated]. *)
Definition gated (r : route) : bool :=
  match r with
  | GET_members | GET_admin | GET_promote _ | GET_demote _ => true
  | _ => false
  end.

End Statements.

(** * Properties *)

(** ** The gates *)

(** C1: on a request that carries no session, [isAdmin] answers with the 403
    page and [isAuthenticated] with a redirect to the login page; neither
    gate ever gives the other's answer, whatever the request. *)
Theorem gates_without_session (req : Request) :
  session_user req = None ->
  isAdmin req = stop (render 403 "403" no_locals) /\
  isAuthenticated req = stop (redirect "/login") /\
  (forall r, isAdmin r = next \/ isAdmin r = stop (render 403 "403" no_locals)) /\
  (forall r, isAuthenticated r = next \/ isAuthenticated r = stop (redirect "/login")) /\
  (exists r, isAuthenticated r = next /\ isAdmin r <> next).
Proof.
  intros Hnone. unfold isAdmin, isAuthenticated. rewrite Hnone.
  repeat split.
  - intros r. destruct (session_user r) as [u|]; [|by right].
    destruct (String.eqb _ _); [by left | by right].
  - intros r. destruct (session_user r); [by left | by right].
  - exists (mkRequest (Some (SessionUser.mk "A" "a@x.com" "user")) [] EmptyString).
    split; [reflexivity | discriminate].
Qed.

Lemma gates_without_session_witness :
  isAdmin (mkRequest None [] EmptyString) = stop (render 403 "403" no_locals) /\
  isAuthenticated (mkRequest None [] EmptyString) = stop (redirect "/login").
Proof.
  pose proof (gates_without_session (mkRequest None [] EmptyString) eq_refl) as (Ha & Hb & _).
  exact (conj Ha Hb).
Defined.

(** ** The admin page *)

(** C4: [GET /admin] with a session attached renders the landing page (and
    no 403 page) when the role of the snapshot is not admin, and renders the
    admin page with every user of the collection when it is. *)
Theorem admin_page (db : list User.t) (req : Request) (u : SessionUser.t) :
  session_user req = Some u ->
  (SessionUser.user_type u <> "admin" ->
     get_admin db req = mkOutcome (render 200 "index" (user_local (Some u))) db (Some u)) /\
  (SessionUser.user_type u = "admin" ->
     get_admin db req = mkOutcome (render 200 "admin" (users_local db)) db (Some u)).
Proof.
  intros Hs. unfold get_admin, admin. cbn [guarded]. unfold isAuthenticated.
  rewrite Hs. split; intros Hrole.
  - apply String.eqb_neq in Hrole. rewrite Hrole. reflexivity.
  - apply String.eqb_eq in Hrole. rewrite Hrole. reflexivity.
Qed.

Lemma admin_page_witness :
  let alice := SessionUser.mk "A" "a@x.com" "user" in
  let root := SessionUser.mk "R" "r@x.com" "admin" in
  let db := [User.mk 1%N "A" "a@x.com" "digest" "user"] in
  get_admin db (mkRequest (Some alice) [] EmptyString)
    = mkOutcome (render 200 "index" (user_local (Some alice))) db (Some alice) /\
  get_admin db (mkRequest (Some root) [] EmptyString)
    = mkOutcome (render 200 "admin" (users_local db)) db (Some root).
Proof.
  split.
  - apply (admin_page _ (mkRequest _ [] EmptyString) _ eq_refl). discriminate.
  - apply (admin_page _ (mkRequest _ [] EmptyString) _ eq_refl). reflexivity.
Defined.

(** ** Validation *)

Section JoiFacts.
Context `{Platform}.

Lemma check_rule_None key s r : check_rule key s r = None <-> rule_holds s r.
Proof.
  destruct r as [n|n|]; simpl.
  - destruct (Nat.ltb_spec (String.length s) n); split; intros; try done; lia.
  - destruct (Nat.ltb_spec n (String.length s)); split; intros; try done; lia.
  - destruct (email_syntax s); split; intros; done.
Qed.

Lemma check_rules_None key s rs :
  check_rules key s rs = None <-> Forall (rule_holds s) rs.
Proof.
  induction rs as [|r rs IH]; simpl.
  - split; [constructor | done].
  - rewrite Forall_cons, <- IH, <- (check_rule_None key).
    destruct (check_rule key s r); split; try done.
    + by intros [? _].
    + by intros [_ ?].
Qed.

(** What a required string schema lets through does not depend on the
    key, which only names the field in the error. *)
Lemma Joi_string_required_inr key rs v s :
  Joi_string_required key rs v = inr s <->
  v = Some (FStr s) /\ s <> EmptyString /\ Forall (rule_holds s) rs.
Proof.
  unfold Joi_string_required.
  destruct v as [[s'|]|]; try (split; [done | by intros [? _]]).
  destruct (String.eqb_spec s' EmptyString) as [->|Hne].
  - split; [done | intros ([= <-] & Hs & _); done].
  - rewrite <- (check_rules_None key).
    destruct (check_rules key s' rs) eqn:Hc.
    + split; [done | intros ([= <-] & _ & Hn); congruence].
    + split; [intros [= <-]; done | intros ([= <-] & _); done].
Qed.

Lemma Joi_string_valid_default_inr key valids d v s :
  Joi_string_valid_default key valids d v = inr s <->
  (v = None /\ s = d) \/ (v = Some (FStr s) /\ In s valids).
Proof.
  unfold Joi_string_valid_default.
  destruct v as [[s'|]|].
  - destruct (existsb (String.eqb s') valids) eqn:He.
    + apply existsb_exists in He as (x & Hin & Heq).
      apply String.eqb_eq in Heq as <-.
      split; [intros [= <-]; by right | intros [[? _]|[[= <-] _]]; done].
    + split; [done|]. intros [[? _]|[[= <-] Hin]]; [done|].
      assert (existsb (String.eqb s') valids = true) as Ht; [|congruence].
      apply existsb_exists. exists s'. split; [done | apply String.eqb_refl].
  - split; [done | intros [[? _]|[? _]]; done].
  - split; [intros [= <-]; by left | intros [[_ ->]|[? _]]; done].
Qed.

Lemma Joi_object_unknown_None known b :
  Joi_object_unknown known b = None <->
  forall k v, In (k, v) b -> In k known.
Proof.
  induction b as [|[k v] b IH]; simpl.
  - split; [intros _ ? ? [] | done].
  - destruct (existsb (String.eqb k) known) eqn:He.
    + apply existsb_exists in He as (x & Hin & Heq).
      apply String.eqb_eq in Heq as <-.
      rewrite IH. split.
      * intros Hb k' v' [[= <- <-]|Hin']; [done | eauto].
      * intros Hb k' v' Hin'. eauto.
    + split; [done|]. intros Hb.
      assert (existsb (String.eqb k) known = true) as Ht; [|congruence].
      apply existsb_exists. exists k. split; [eauto | apply String.eqb_refl].
Qed.

Lemma joi_check_inr c u : joi_check c = inr u <-> c = None.
Proof. destruct c, u; simpl; split; done. Qed.

Lemma signup_schema_inr b v :
  signup_schema b = inr v <->
  Joi_string_required "name" [Max 30] (body_get "name" b) = inr (sv_name v) /\
  Joi_string_required "email" [Email] (body_get "email" b) = inr (sv_email v) /\
  Joi_string_required "password" [Min 5; Max 30] (body_get "password" b)
    = inr (sv_password v) /\
  Joi_string_valid_default "user_type" ["user"; "admin"] "user"
    (body_get "user_type" b) = inr (sv_user_type v) /\
  Joi_object_unknown ["name"; "email"; "password"; "user_type"] b = None.
Proof.
  unfold signup_schema.
  destruct (Joi_string_required "name" _ _) as [?|n]; simpl;
    [split; [done | by intros [? _]]|].
  destruct (Joi_string_required "email" _ _) as [?|e]; simpl;
    [split; [done | by intros (_ & ? & _)]|].
  destruct (Joi_string_required "password" _ _) as [?|p]; simpl;
    [split; [done | by intros (_ & _ & ? & _)]|].
  destruct (Joi_string_valid_default _ _ _ _) as [?|ut]; simpl;
    [split; [done | by intros (_ & _ & _ & ? & _)]|].
  destruct (Joi_object_unknown _ _) as [?|]; simpl;
    [split; [done | by intros (_ & _ & _ & _ & ?)]|].
  destruct v as [n' e' p' ut']; simpl.
  split; [intros [= <- <- <- <-]; done | intros ([= ->] & [= ->] & [= ->] & [= ->] & _); done].
Qed.

Lemma login_schema_inr b v :
  login_schema b = inr v <->
  Joi_string_required "email" [Email] (body_get "email" b) = inr (lv_email v) /\
  Joi_string_required "password" [Min 5; Max 30] (body_get "password" b)
    = inr (lv_password v) /\
  Joi_object_unknown ["email"; "password"] b = None.
Proof.
  unfold login_schema.
  destruct (Joi_string_required "email" _ _) as [?|e]; simpl;
    [split; [done | by intros [? _]]|].
  destruct (Joi_string_required "password" _ _) as [?|p]; simpl;
    [split; [done | by intros (_ & ? & _)]|].
  destruct (Joi_object_unknown _ _) as [?|]; simpl;
    [split; [done | by intros (_ & _ & ?)]|].
  destruct v as [e' p']; simpl.
  split; [intros [= <- <-]; done | intros ([= ->] & [= ->] & _); done].
Qed.

(** After the schema has passed, the fields the login handler reads from
    [req.body] are the strings of the validated value. *)
Lemma login_schema_reads_body b v :
  login_schema b = inr v ->
  body_get "email" b = Some (FStr (lv_email v)) /\
  body_get "password" b = Some (FStr (lv_password v)).
Proof.
  intros (He & Hp & _)%login_schema_inr.
  apply Joi_string_required_inr in He as (He & _).
  apply Joi_string_required_inr in Hp as (Hp & _). done.
Qed.
End JoiFacts.

Arguments Joi_string_required : simpl never.
Arguments Joi_string_valid_default : simpl never.
Arguments Joi_object_unknown : simpl never.

(** ** Signup *)

Section Signup.
Context `{Platform}.

Lemma signup_accepts_iff (b : Body) : signup_accepts b <-> signup_input_ok b.
Proof.
  unfold signup_accepts, signup_input_ok, role_field_ok. split.
  - intros (v & Hv). apply signup_schema_inr in Hv as (Hn & He & Hp & Hu & Hk).
    apply Joi_string_required_inr in Hn as (Hn & Hn1 & Hn2).
    apply Joi_string_required_inr in He as (He & He1 & He2).
    apply Joi_string_required_inr in Hp as (Hp & Hp1 & Hp2).
    apply Joi_string_valid_default_inr in Hu.
    pose proof (proj1 (Joi_object_unknown_None _ _) Hk) as Hk'.
    inversion_clear Hn2 as [|? ? Hn3 _].
    inversion_clear He2 as [|? ? He3 _].
    inversion_clear Hp2 as [|? ? Hp3 Hp4]. inversion_clear Hp4 as [|? ? Hp5 _].
    simpl in *. repeat split; eauto.
    destruct Hu as [[Hu _]|[Hu [Hr|[Hr|[]]]]]; [by left | | ];
      rewrite <- Hr in Hu; eauto.
  - intros ((n & Hn & Hn1 & Hn2) & (e & He & He1 & He2) &
            (p & Hp & Hp1 & Hp2) & Hu & Hk).
    assert (exists ut, Joi_string_valid_default "user_type" ["user"; "admin"]
              "user" (body_get "user_type" b) = inr ut) as (ut & Hut).
    { destruct Hu as [Hu|[Hu|Hu]]; rewrite Hu; eexists; reflexivity. }
    exists (mkSignupValue n e p ut). apply signup_schema_inr. simpl.
    split; [|split; [|split; [|split]]]; try done.
    + apply Joi_string_required_inr.
      split; [done | split; [done|]].
      apply List.Forall_cons; [exact Hn2 | apply List.Forall_nil].
    + apply Joi_string_required_inr.
      split; [done | split; [done|]].
      apply List.Forall_cons; [exact He2 | apply List.Forall_nil].
    + apply Joi_string_required_inr.
      split; [done | split].
      * intros ->. simpl in Hp1. lia.
      * apply List.Forall_cons; [exact Hp1|].
        apply List.Forall_cons; [exact Hp2 | apply List.Forall_nil].
    + apply Joi_object_unknown_None. done.
Qed.

(** The outcome of a signup the schema lets through. *)
Lemma post_signup_accepted oid salt db req v :
  signup_schema (body req) = inr v ->
  post_signup oid salt db req =
    mkOutcome (redirect "/members")
      (db ++ [User.mk oid (sv_name v) (sv_email v)
                (bcrypt_hash salt (sv_password v)) (sv_user_type v)])%list
      (Some (SessionUser.mk (sv_name v) (sv_email v) (sv_user_type v))).
Proof.
  intros Hv. unfold post_signup, User.create. rewrite Hv. reflexivity.
Qed.

(** C5, as the schema has it: [POST /signup] accepts exactly the bodies
    whose name is a non-empty string of at most 30 characters, whose email
    is a non-empty string of valid syntax, whose password is a string of 5
    to 30 characters, whose role is absent, user or admin, and which have
    no other field; an omitted role becomes user; a refused body gets the
    validation message with a link back to the form and changes neither
    the collection nor the session. *)
Theorem signup_validation :
  (forall b, signup_accepts b <-> signup_input_ok b) /\
  (forall b v, signup_schema b = inr v ->
     body_get "user_type" b = None -> sv_user_type v = "user") /\
  (forall oid salt db req e, signup_schema (body req) = inl e ->
     post_signup oid salt db req =
       mkOutcome (send (paragraph (message e) ++ retry "/signup"))
         db (session_user req)).
Proof.
  split; [exact signup_accepts_iff | split].
  - intros b v (_ & _ & _ & Hu & _)%signup_schema_inr Hnone.
    rewrite Hnone in Hu. apply Joi_string_valid_default_inr in Hu.
    destruct Hu as [[_ Hu]|[? _]]; done.
  - intros oid salt db req e He. unfold post_signup. rewrite He. reflexivity.
Qed.

(** The sentence as it is written fails on a form sent with the name left
    empty, whatever address the email rule accepts. *)
Lemma signup_refuses_empty_name (e : string) :
  email_syntax e = true ->
  let b := [("name", FStr EmptyString); ("email", FStr e);
            ("password", FStr "secret")] in
  signup_input_as_claimed b /\ signup_schema b = inl (string_empty "name").
Proof.
  intros He b. split; [|reflexivity].
  unfold signup_input_as_claimed, role_field_ok. repeat split.
  - exists EmptyString. split; [reflexivity | simpl; lia].
  - exists e. done.
  - exists "secret". split; [reflexivity | simpl; lia].
  - by left.
Qed.

(** It also fails on a form that sends a field the schema does not name. *)
Lemma signup_refuses_unknown_field (e : string) :
  e <> EmptyString -> email_syntax e = true ->
  let b := [("name", FStr "A"); ("email", FStr e);
            ("password", FStr "secret"); ("foo", FStr "1")] in
  signup_input_as_claimed b /\ signup_schema b = inl (object_unknown "foo").
Proof.
  intros He1 He2 b. split.
  - unfold signup_input_as_claimed, role_field_ok. repeat split.
    + exists "A". split; [reflexivity | simpl; lia].
    + exists e. done.
    + exists "secret". split; [reflexivity | simpl; lia].
    + by left.
  - unfold signup_schema, Joi_string_required. cbn [body_get b String.eqb Ascii.eqb Bool.eqb].
    apply String.eqb_neq in He1. rewrite He1.
    cbn [check_rules check_rule]. rewrite He2. reflexivity.
Qed.
End Signup.

Lemma signup_validation_witness :
  let b := [("name", FStr "A"); ("email", FStr "a@x.com");
            ("password", FStr "secret")] in
  let bad := [("name", FStr "A"); ("email", FStr "a@x.com");
              ("password", FStr "abc")] in
  let req := mkRequest None bad EmptyString in
  @signup_schema sample_platform b = inr (mkSignupValue "A" "a@x.com" "secret" "user") /\
  @signup_input_ok sample_platform b /\
  @post_signup sample_platform 1%N "salt" [] req =
    mkOutcome
      (send (paragraph (message (string_min "password" 5)) ++ retry "/signup"))
      [] None.
Proof.
  intros b bad req.
  destruct (@signup_validation sample_platform) as (Hiff & _ & Hbad).
  split; [reflexivity | split].
  - apply Hiff. eexists. reflexivity.
  - apply (Hbad 1%N "salt" [] req). reflexivity.
Defined.

(** C5 as written does not hold: the body with an empty name meets the
    conditions the sentence lists, and the schema refuses it. *)
Lemma signup_claim_counterexample :
  let empty_name := [("name", FStr EmptyString); ("email", FStr "a@x.com");
                     ("password", FStr "secret")] in
  let extra_field := [("name", FStr "A"); ("email", FStr "a@x.com");
                      ("password", FStr "secret"); ("foo", FStr "1")] in
  (@signup_input_as_claimed sample_platform empty_name /\
   @signup_schema sample_platform empty_name = inl (string_empty "name")) /\
  (@signup_input_as_claimed sample_platform extra_field /\
   @signup_schema sample_platform extra_field = inl (object_unknown "foo")) /\
  ~ (forall (P : Platform) (b : Body),
       @signup_accepts P b <-> @signup_input_as_claimed P b).
Proof.
  intros empty_name extra_field.
  pose proof (@signup_refuses_empty_name sample_platform "a@x.com" eq_refl)
    as Hempty.
  assert ("a@x.com" <> EmptyString) as Hne by discriminate.
  pose proof (@signup_refuses_unknown_field sample_platform "a@x.com" Hne eq_refl)
    as Hextra.
  split; [exact Hempty | split; [exact Hextra|]].
  intros Hclaim. destruct Hempty as (Hin & Hout).
  apply (Hclaim sample_platform) in Hin as (v & Hv).
  rewrite Hv in Hout. discriminate.
Qed.

(** ** Login *)

Lemma findOne_app_new (e : string) (db : list User.t) (u : User.t) :
  User.findOne e db = None -> User.email u = e ->
  User.findOne e (db ++ [u])%list = Some u.
Proof.
  intros Hnone He. induction db as [|x db IH]; simpl in *.
  - rewrite He, String.eqb_refl. reflexivity.
  - destruct (String.eqb (User.email x) e); [discriminate | auto].
Qed.

(** Writing a session back unchanged leaves the session store as it was
    ([resave: false]). *)
Lemma save_same (sid : N) (m : gmap N SessionUser.t) : save sid (m !! sid) m = m.
Proof.
  unfold save. destruct (m !! sid) as [u|] eqn:Hm.
  - by apply insert_id.
  - by apply delete_id.
Qed.

Section Login.
Context `{Platform}.

Lemma login_schema_accepts (e p : string) :
  e <> EmptyString -> email_syntax e = true ->
  5 <= String.length p <= 30 ->
  login_schema (login_body e p) = inr (mkLoginValue e p).
Proof.
  intros He1 He2 [Hp1 Hp2]. apply login_schema_inr. simpl.
  split; [|split; [|reflexivity]].
  - apply Joi_string_required_inr.
    split; [done | split; [done|]].
    apply List.Forall_cons; [exact He2 | apply List.Forall_nil].
  - apply Joi_string_required_inr.
    split; [done | split].
    + intros ->. simpl in Hp1. lia.
    + apply List.Forall_cons; [exact Hp1|].
      apply List.Forall_cons; [exact Hp2 | apply List.Forall_nil].
Qed.

(** What a validated signup says about its email and password. *)
Lemma signup_schema_credentials b v :
  signup_schema b = inr v ->
  sv_email v <> EmptyString /\ email_syntax (sv_email v) = true /\
  5 <= String.length (sv_password v) <= 30.
Proof.
  intros (_ & He & Hp & _)%signup_schema_inr.
  apply Joi_string_required_inr in He as (_ & He1 & He2).
  apply Joi_string_required_inr in Hp as (_ & _ & Hp2).
  inversion_clear He2 as [|? ? He3 _].
  inversion_clear Hp2 as [|? ? Hp3 Hp4]. inversion_clear Hp4 as [|? ? Hp5 _].
  simpl in *. done.
Qed.

(** C3, as the code has it: after a signup that passed validation and
    whose email no earlier user record holds, a login with the same email
    and password redirects to /members and attaches a session whose role
    is the one stored at signup. *)
Theorem login_after_signup oid salt db req v su :
  signup_schema (body req) = inr v ->
  User.findOne (sv_email v) db = None ->
  let o1 := post_signup oid salt db req in
  let o2 := post_login (users o1)
              (mkRequest su (login_body (sv_email v) (sv_password v))
                 EmptyString) in
  (exists u, users o1 = (db ++ [u])%list /\
             User.email u = sv_email v /\
             User.user_type u = sv_user_type v) /\
  res o2 = redirect "/members" /\
  session o2 = Some (SessionUser.mk (sv_name v) (sv_email v) (sv_user_type v)).
Proof.
  intros Hv Hnew o1 o2.
  assert (o1 = mkOutcome (redirect "/members")
            (db ++ [User.mk oid (sv_name v) (sv_email v)
                      (bcrypt_hash salt (sv_password v)) (sv_user_type v)])%list
            (Some (SessionUser.mk (sv_name v) (sv_email v) (sv_user_type v))))
    as Ho1 by (apply post_signup_accepted; assumption).
  split.
  - rewrite Ho1. simpl. eexists. split; [reflexivity | done].
  - destruct (signup_schema_credentials _ _ Hv) as (He1 & He2 & Hp).
    subst o2. unfold post_login. cbn [body].
    rewrite (login_schema_accepts _ _ He1 He2 Hp). cbn [lv_email lv_password].
    rewrite Ho1. cbn [users].
    rewrite (findOne_app_new (sv_email v) db
               (User.mk oid (sv_name v) (sv_email v)
                  (bcrypt_hash salt (sv_password v)) (sv_user_type v))
               Hnew eq_refl).
    cbn [User.password].
    rewrite bcrypt_compare_hash. done.
Qed.

(** An earlier record with the same email is the one [findOne] returns:
    the login then attaches that record's role, not the one just stored. *)
Lemma login_shadowed_by_earlier_record (e : string) :
  e <> EmptyString -> email_syntax e = true ->
  let old := User.mk 1%N "Old" e (bcrypt_hash "s0" "secret") "user" in
  let req := mkRequest None
               [("name", FStr "A"); ("email", FStr e);
                ("password", FStr "secret"); ("user_type", FStr "admin")]
               EmptyString in
  let o1 := post_signup 2%N "s1" [old] req in
  signup_schema (body req) = inr (mkSignupValue "A" e "secret" "admin") /\
  res o1 = redirect "/members" /\
  session (post_login (users o1) (mkRequest None (login_body e "secret") EmptyString))
    = Some (SessionUser.mk "Old" e "user").
Proof.
  intros He1 He2 old req o1.
  assert (signup_schema (body req) = inr (mkSignupValue "A" e "secret" "admin"))
    as Hv.
  { apply signup_schema_inr. simpl.
    split; [reflexivity | split; [|split; [reflexivity | done]]].
    apply Joi_string_required_inr. split; [done | split; [done|]].
    apply List.Forall_cons; [exact He2 | apply List.Forall_nil]. }
  assert (o1 = mkOutcome (redirect "/members")
            [old; User.mk 2%N "A" e (bcrypt_hash "s1" "secret") "admin"]
            (Some (SessionUser.mk "A" e "admin"))) as Ho1.
  { subst o1. rewrite (post_signup_accepted _ _ _ _ _ Hv). reflexivity. }
  split; [exact Hv | split; [by rewrite Ho1|]].
  rewrite Ho1. unfold post_login. cbn [body users].
  rewrite login_schema_accepts by (simpl; first [done | lia]).
  cbn [lv_email lv_password User.findOne]. subst old. cbn [User.email].
  rewrite String.eqb_refl. cbn [User.password].
  rewrite bcrypt_compare_hash. reflexivity.
Qed.

(** C7, as the code has it: a login whose body passes the schema and
    whose email matches no stored user gets the message User not found
    with a link back to the form; the collection, the session of the
    request and the session store are left as they were. *)
Theorem login_unknown_email db req v :
  login_schema (body req) = inr v ->
  User.findOne (lv_email v) db = None ->
  body_get "email" (body req) = Some (FStr (lv_email v)) /\
  post_login db req =
    mkOutcome (send (paragraph "User not found" ++ retry "/login"))
      db (session_user req) /\
  (forall sid srv, collection srv = db ->
     serve sid (POST_login (body req)) srv =
       (send (paragraph "User not found" ++ retry "/login"), srv)).
Proof.
  intros Hv Hnone. split; [|split].
  - by apply login_schema_reads_body.
  - unfold post_login. rewrite Hv, Hnone. reflexivity.
  - intros sid [db' ss] Hdb. simpl in Hdb. subst db'.
    unfold serve, handle, post_login. cbn [collection sessions body].
    rewrite Hv, Hnone. cbn [res users session session_user].
    rewrite save_same. reflexivity.
Qed.

(** A body the schema refuses is answered with the schema's message, even
    when its email matches no stored user. *)
Lemma login_short_password_message :
  let req := mkRequest None (login_body "nobody@x.com" "abc") EmptyString in
  body_get "email" (body req) = Some (FStr "nobody@x.com") /\
  User.findOne "nobody@x.com" [] = None /\
  res (post_login [] req) <> send (paragraph "User not found" ++ retry "/login").
Proof.
  intros req. split; [reflexivity | split; [reflexivity|]].
  unfold post_login, login_schema, Joi_string_required. simpl.
  destruct (email_syntax "nobody@x.com"); simpl; intros [= Heq];
    vm_compute in Heq; discriminate.
Qed.
End Login.

Lemma login_after_signup_witness :
  let req := mkRequest None
               [("name", FStr "A"); ("email", FStr "a@x.com");
                ("password", FStr "secret")] EmptyString in
  let v := mkSignupValue "A" "a@x.com" "secret" "user" in
  let o1 := @post_signup sample_platform 1%N "salt" [] req in
  let o2 := @post_login sample_platform (users o1)
              (mkRequest None (login_body "a@x.com" "secret") EmptyString) in
  @signup_schema sample_platform (body req) = inr v /\
  res o1 = redirect "/members" /\
  User.findOne "a@x.com" [] = None /\
  res o2 = redirect "/members" /\
  session o2 = Some (SessionUser.mk "A" "a@x.com" "user").
Proof.
  intros req v o1 o2.
  destruct (@login_after_signup sample_platform 1%N "salt" [] req v None
              eq_refl eq_refl) as (_ & Hres & Hsess).
  repeat split; assumption.
Defined.

(** C3 as written does not hold: with an earlier record under the same
    email, the login after a signup as admin attaches the role user. *)
Lemma login_after_signup_counterexample :
  let old := User.mk 1%N "Old" "a@x.com"
               (@bcrypt_hash sample_platform "s0" "secret") "user" in
  let req := mkRequest None
               [("name", FStr "A"); ("email", FStr "a@x.com");
                ("password", FStr "secret"); ("user_type", FStr "admin")]
               EmptyString in
  let o1 := @post_signup sample_platform 2%N "s1" [old] req in
  session (@post_login sample_platform (users o1)
             (mkRequest None (login_body "a@x.com" "secret") EmptyString))
    = Some (SessionUser.mk "Old" "a@x.com" "user") /\
  ~ (forall P : Platform, @login_after_signup_as_claimed P).
Proof.
  intros old req o1.
  destruct (@login_shadowed_by_earlier_record sample_platform "a@x.com")
    as (Hv & Hres & Hsess); [done | reflexivity |].
  split; [exact Hsess|].
  intros Hclaim.
  destruct (Hclaim sample_platform 2%N "s1" [old] req _ None Hv)
    as (_ & s & Hs & Hrole).
  pose proof (eq_trans (eq_sym Hs) Hsess) as Heq.
  injection Heq as ->. discriminate Hrole.
Qed.

Lemma login_unknown_email_witness :
  let req := mkRequest None (login_body "nobody@x.com" "secret") EmptyString in
  @login_schema sample_platform (body req) = inr (mkLoginValue "nobody@x.com" "secret") /\
  User.findOne "nobody@x.com" [] = None /\
  @post_login sample_platform [] req =
    mkOutcome (send (paragraph "User not found" ++ retry "/login")) [] None.
Proof.
  intros req.
  destruct (@login_unknown_email sample_platform [] req
              (mkLoginValue "nobody@x.com" "secret") eq_refl eq_refl)
    as (_ & Hout & _).
  split; [reflexivity | split; [reflexivity | exact Hout]].
Defined.

(** C7 as written does not hold: a login with an unregistered email and a
    password of three characters is answered with the schema's message. *)
Lemma login_unknown_email_counterexample :
  @post_login sample_platform []
    (mkRequest None (login_body "nobody@x.com" "abc") EmptyString)
    = mkOutcome
        (send (paragraph (message (string_min "password" 5)) ++ retry "/login"))
        [] None /\
  ~ (forall P : Platform, @unknown_email_as_claimed P).
Proof.
  split; [reflexivity|].
  intros Hclaim.
  destruct (@login_short_password_message sample_platform) as (He & Hnone & Hne).
  apply Hne. rewrite (Hclaim sample_platform [] _ _ He Hnone). reflexivity.
Qed.

(** ** Role mutation *)

Lemma same_but_role_refl target (db : list User.t) :
  Forall2 (same_but_role target) db db.
Proof. induction db; constructor; [by repeat split | done]. Qed.

Lemma update_first_lookup oid ut db :
  lookup_id oid (User.update_first oid ut db)
    = User.set_user_type ut <$> lookup_id oid db.
Proof.
  induction db as [|u db IH]; simpl; [reflexivity|].
  destruct (N.eqb (User._id u) oid) eqn:Hu; simpl.
  - rewrite Hu. reflexivity.
  - rewrite Hu. exact IH.
Qed.

Lemma update_first_absent oid ut db :
  lookup_id oid db = None -> User.update_first oid ut db = db.
Proof.
  induction db as [|u db IH]; simpl; [reflexivity|].
  destruct (N.eqb (User._id u) oid); [discriminate|].
  intros Hn. by rewrite IH.
Qed.

Lemma update_first_frame oid ut db :
  Forall2 (same_but_role (Some oid)) db (User.update_first oid ut db).
Proof.
  induction db as [|u db IH]; simpl; [constructor|].
  destruct (N.eqb_spec (User._id u) oid) as [Heq|Hne].
  - constructor; [|apply same_but_role_refl].
    repeat split; try reflexivity. intros Hn. congruence.
  - constructor; [by repeat split | exact IH].
Qed.

Lemma hex_value_all_hex s acc : is_Some (hex_value s acc) <-> all_hex s = true.
Proof.
  revert acc. induction s as [|c s IH]; intros acc; simpl.
  - split; [done | by eexists].
  - destruct (hex_digit c); [apply IH|].
    split; [by intros [? ?] | done].
Qed.

(** The strings that cast are the strings of 24 hex digits. *)
Lemma castObjectId_is_Some s :
  is_Some (castObjectId s) <-> String.length s = 24 /\ all_hex s = true.
Proof.
  unfold castObjectId. destruct (Nat.eqb_spec (String.length s) 24) as [Hl|Hl].
  - rewrite hex_value_all_hex. tauto.
  - split; [by intros [? ?] | tauto].
Qed.

(** C6, as the code has it: for an [:id] of 24 hex digits, a request to
    /promote/:id (resp. /demote/:id) by an admin session sets the role of
    the record with that id to admin (resp. user), whatever it was, and
    redirects to /admin; when no record has that id the request still
    redirects to /admin and the collection is unchanged. *)
Theorem role_mutation_by_admin db req u :
  session_user req = Some u ->
  SessionUser.user_type u = "admin" ->
  String.length (params_id req) = 24 ->
  all_hex (params_id req) = true ->
  exists oid,
    castObjectId (params_id req) = Some oid /\
    get_promote db req =
      mkOutcome (redirect "/admin") (User.update_first oid "admin" db) (Some u) /\
    get_demote db req =
      mkOutcome (redirect "/admin") (User.update_first oid "user" db) (Some u) /\
    (forall ut, lookup_id oid (User.update_first oid ut db)
                  = User.set_user_type ut <$> lookup_id oid db) /\
    (forall ut, lookup_id oid db = None -> User.update_first oid ut db = db).
Proof.
  intros Hs Hrole Hlen Hhex. apply String.eqb_eq in Hrole.
  destruct (proj2 (castObjectId_is_Some (params_id req)) (conj Hlen Hhex))
    as [oid Hcast].
  exists oid. split; [exact Hcast|].
  unfold get_promote, get_demote, promote, demote, set_role, User.updateOne.
  cbn [guarded]. unfold isAuthenticated, isAdmin.
  rewrite Hs, Hrole, Hcast.
  repeat split; auto using update_first_lookup, update_first_absent.
Qed.

Lemma role_mutation_by_admin_witness :
  let root := SessionUser.mk "R" "r@x.com" "admin" in
  let alice := User.mk 1%N "A" "a@x.com" "digest" "user" in
  let req := mkRequest (Some root) [] "000000000000000000000001" in
  let ghost := mkRequest (Some root) [] "0000000000000000000000ff" in
  get_promote [alice] req =
    mkOutcome (redirect "/admin") [User.mk 1%N "A" "a@x.com" "digest" "admin"]
      (Some root) /\
  get_promote [alice] ghost = mkOutcome (redirect "/admin") [alice] (Some root).
Proof.
  intros root alice req ghost. split.
  - destruct (role_mutation_by_admin [alice] req root eq_refl eq_refl eq_refl
                eq_refl) as (oid & Hcast & Hpromote & _).
    injection Hcast as <-. exact Hpromote.
  - destruct (role_mutation_by_admin [alice] ghost root eq_refl eq_refl eq_refl
                eq_refl) as (oid & Hcast & Hpromote & _).
    injection Hcast as <-. exact Hpromote.
Defined.

(** C6 as written does not hold: /promote/abc by an admin session ends in
    the cast error of the filter, which the handler does not catch, and not
    in a redirect. *)
Lemma role_mutation_counterexample :
  let root := SessionUser.mk "R" "r@x.com" "admin" in
  get_promote [] (mkRequest (Some root) [] "abc")
    = mkOutcome (unhandled (CastError "abc")) [] (Some root) /\
  ~ role_mutation_as_claimed.
Proof.
  split; [reflexivity|].
  intros Hclaim.
  destruct (Hclaim [] (mkRequest (Some (SessionUser.mk "R" "r@x.com" "admin"))
                         [] "abc") _ eq_refl eq_refl) as [Hp _].
  discriminate Hp.
Qed.

(** ** The frame of a role mutation, and the snapshot *)

Section Frame.
Context `{Platform}.

Lemma guarded_session gates h db req :
  (forall db' req', session (h db' req') = session_user req') ->
  session (guarded gates h db req) = session_user req.
Proof.
  intros Hh. induction gates as [|g gates IH]; simpl; [apply Hh|].
  destruct (g req); [exact IH | reflexivity].
Qed.

Lemma set_role_session ut db req :
  session (set_role ut db req) = session_user req.
Proof. unfold set_role. by destruct (User.updateOne _ _ _). Qed.

Lemma set_role_frame ut db req :
  Forall2 (same_but_role (castObjectId (params_id req))) db
    (users (set_role ut db req)).
Proof.
  unfold set_role, User.updateOne.
  destruct (castObjectId (params_id req)) as [oid|]; simpl.
  - apply update_first_frame.
  - apply same_but_role_refl.
Qed.

Lemma guarded_frame target gates h db req :
  Forall2 (same_but_role target) db (users (h db req)) ->
  Forall2 (same_but_role target) db (users (guarded gates h db req)).
Proof.
  intros Hh. induction gates as [|g gates IH]; simpl; [exact Hh|].
  destruct (g req); [exact IH | apply same_but_role_refl].
Qed.

(** A route that does not assign [req.session.user] leaves it as the
    middleware loaded it. *)
Lemma handle_keeps_session r db su :
  writes_session r = false -> session (handle r db su) = su.
Proof.
  destruct r; simpl; try discriminate; intros _; try reflexivity.
  - apply (guarded_session [isAuthenticated] members). reflexivity.
  - apply (guarded_session [isAuthenticated] admin).
    intros db' req'. unfold admin.
    destruct (session_user req') as [u|]; [|reflexivity].
    by destruct (negb _).
  - apply (guarded_session [isAuthenticated; isAdmin] promote).
    intros. apply set_role_session.
  - apply (guarded_session [isAuthenticated; isAdmin] demote).
    intros. apply set_role_session.
Qed.

Lemma serve_keeps_sessions sid r srv :
  writes_session r = false ->
  sessions (snd (serve sid r srv)) = sessions srv.
Proof.
  intros Hr. unfold serve. cbn [snd sessions].
  rewrite (handle_keeps_session _ _ _ Hr). apply save_same.
Qed.

(** A request of one session does not touch the stored session of
    another. *)
Lemma serve_other_session sid sid' r srv :
  sid' <> sid ->
  sessions (snd (serve sid' r srv)) !! sid = sessions srv !! sid.
Proof.
  intros Hne. unfold serve, save. cbn [snd sessions].
  destruct (session _).
  - by apply lookup_insert_ne.
  - by apply lookup_delete_ne.
Qed.

(** C10: a request to /promote/:id or /demote/:id, by any session and for
    any [:id], leaves the session store as it was, and leaves every user
    record as it was up to the role of the record whose [_id] is the id:
    the collection keeps its length and order, every record keeps its
    [_id], name, email and password, and every record with another [_id]
    is unchanged. *)
Theorem role_mutation_frame (sid : N) (id : string) (promoting : bool)
    (srv : Server) :
  let r := if promoting then GET_promote id else GET_demote id in
  let srv' := snd (serve sid r srv) in
  sessions srv' = sessions srv /\
  Forall2 (same_but_role (castObjectId id)) (collection srv) (collection srv').
Proof.
  intros r srv'. split.
  - apply serve_keeps_sessions. by destruct promoting.
  - subst srv' r. unfold serve. cbn [snd collection].
    destruct promoting; cbn [handle].
    + apply (guarded_frame _ [isAuthenticated; isAdmin] promote).
      apply (set_role_frame "admin" _ (mkRequest _ [] id)).
    + apply (guarded_frame _ [isAuthenticated; isAdmin] demote).
      apply (set_role_frame "user" _ (mkRequest _ [] id)).
Qed.

Lemma run_keeps_session sid snap trace srv :
  sessions srv !! sid = Some snap ->
  Forall (for_session sid (fun r => writes_session r = false)) trace ->
  sessions (run trace srv) !! sid = Some snap.
Proof.
  revert srv. induction trace as [|[sid' r] trace IH]; intros srv Hs Hall.
  - exact Hs.
  - inversion_clear Hall as [|? ? Hhd Htl]. cbn [run]. apply IH; [|exact Htl].
    destruct (decide (sid' = sid)) as [->|Hne].
    + rewrite serve_keeps_sessions; [exact Hs | by apply Hhd].
    + by rewrite serve_other_session.
Qed.

Lemma findOne_In e db u : User.findOne e db = Some u -> In u db.
Proof.
  induction db as [|x db IH]; simpl; [discriminate|].
  destruct (String.eqb (User.email x) e); [intros [= <-]; by left | auto].
Qed.

(** The snapshot a successful login stores is made of the name, the email
    and the role of the record found at that moment. *)
Lemma login_captures_snapshot db req :
  res (post_login db req) = redirect "/members" ->
  exists user, In user db /\
    session (post_login db req) =
      Some (SessionUser.mk (User.name user) (User.email user)
              (User.user_type user)).
Proof.
  unfold post_login. destruct (login_schema _) as [?|v]; [discriminate|].
  destruct (User.findOne _ _) as [user|] eqn:Hu; [|discriminate].
  destruct (bcrypt_compare _ _); [|discriminate].
  intros _. exists user. split; [by eapply findOne_In | reflexivity].
Qed.

(** C2: a session is born with the snapshot of a record: a login stores
    the name, email and role of the record it found, a signup those of the
    record it created.  While the session is not written again (no signup,
    login or logout on it), the snapshot stays the same through any
    requests, its own and those of other sessions, role changes included,
    and at every moment each route that checks the role decides by the role
    of the snapshot and by nothing the collection holds: with the role
    admin, /admin lists the users and /promote/:id and /demote/:id go
    through; with any other role, /admin renders the landing page and the
    role routes answer 403 and change nothing. *)
Theorem snapshot_decides_authorization (sid : N) (snap : SessionUser.t)
    (srv : Server) (trace : list (N * route)) :
  sessions srv !! sid = Some snap ->
  Forall (for_session sid (fun r => writes_session r = false)) trace ->
  (forall before after, trace = (before ++ after)%list ->
     let now := run before srv in
     sessions now !! sid = Some snap /\
     serve sid GET_members now
       = (render 200 "cats" (cats_locals (Some snap) images), now) /\
     (SessionUser.user_type snap = "admin" ->
        serve sid GET_admin now
          = (render 200 "admin" (users_local (collection now)), now) /\
        forall id,
          serve sid (GET_promote id) now = role_change "admin" id now /\
          serve sid (GET_demote id) now = role_change "user" id now) /\
     (SessionUser.user_type snap <> "admin" ->
        serve sid GET_admin now
          = (render 200 "index" (user_local (Some snap)), now) /\
        forall id,
          serve sid (GET_promote id) now = (render 403 "403" no_locals, now) /\
          serve sid (GET_demote id) now = (render 403 "403" no_locals, now))) /\
  (forall srv0 b,
     fst (serve sid (POST_login b) srv0) = redirect "/members" ->
     exists v user,
       login_schema b = inr v /\
       User.findOne (lv_email v) (collection srv0) = Some user /\
       snd (serve sid (POST_login b) srv0)
         = mkServer (collection srv0)
             (<[sid := snapshot_of user]> (sessions srv0))) /\
  (forall srv0 b oid salt v,
     signup_schema b = inr v ->
     snd (serve sid (POST_signup b oid salt) srv0)
       = mkServer
           (collection srv0 ++
              [User.mk oid (sv_name v) (sv_email v)
                 (bcrypt_hash salt (sv_password v)) (sv_user_type v)])%list
           (<[sid := SessionUser.mk (sv_name v) (sv_email v) (sv_user_type v)]>
              (sessions srv0))).
Proof.
  intros Hs Hall. split; [|split].
  - intros before after -> now.
    apply Forall_app in Hall as [Hbefore _].
    pose proof (run_keeps_session _ _ _ _ Hs Hbefore) as Hnow.
    fold now in Hnow. clearbody now. destruct now as [db ss].
    cbn [sessions] in Hnow.
    split; [exact Hnow|].
    unfold role_change, serve. cbn [collection sessions]. rewrite Hnow.
    cbn [handle]. unfold get_members, get_admin, get_promote, get_demote,
      members, admin, promote, demote, set_role, User.updateOne.
    cbn [guarded]. unfold isAuthenticated, isAdmin.
    cbn [session_user params_id res users session save].
    rewrite (insert_id _ _ _ Hnow).
    split; [reflexivity|]. split; intros Hrole.
    + apply String.eqb_eq in Hrole. rewrite Hrole. cbn [negb res users session save].
      rewrite (insert_id _ _ _ Hnow). split; [reflexivity|].
      intros id. destruct (castObjectId id);
        cbn [res users session save]; rewrite (insert_id _ _ _ Hnow);
        split; reflexivity.
    + apply String.eqb_neq in Hrole. rewrite Hrole. cbn [negb res users session save].
      rewrite (insert_id _ _ _ Hnow). split; [reflexivity|].
      intros id. split; reflexivity.
  - intros [db0 ss0] b. unfold serve. cbn [collection sessions fst snd handle].
    unfold post_login. cbn [body session_user].
    destruct (login_schema b) as [e|v]; [discriminate|].
    destruct (User.findOne (lv_email v) db0) as [user|] eqn:Hu; [|discriminate].
    destruct (bcrypt_compare _ _); [|discriminate].
    intros _. exists v, user.
    split; [reflexivity | split; [exact Hu | reflexivity]].
  - intros [db0 ss0] b oid salt v Hv. unfold serve.
    cbn [collection sessions snd handle].
    rewrite (post_signup_accepted oid salt db0 (mkRequest _ b EmptyString) v Hv).
    reflexivity.
Qed.
End Frame.

Lemma snapshot_decides_authorization_witness :
  let root := SessionUser.mk "R" "r@x.com" "admin" in
  let id := "000000000000000000000001" in
  let srv0 := mkServer [User.mk 1%N "R" "r@x.com" "ssecret" "admin"] ∅ in
  let srv := snd (@serve sample_platform 7%N
                    (POST_login (login_body "r@x.com" "secret")) srv0) in
  let trace := [(7%N, GET_demote id); (9%N, GET_index)] in
  let now := @run sample_platform trace srv in
  sessions srv !! 7%N = Some root /\
  collection now = [User.mk 1%N "R" "r@x.com" "ssecret" "user"] /\
  sessions now !! 7%N = Some root /\
  @serve sample_platform 7%N GET_admin now
    = (render 200 "admin" (users_local (collection now)), now) /\
  @serve sample_platform 7%N (GET_promote id) now
    = (redirect "/admin",
       mkServer [User.mk 1%N "R" "r@x.com" "ssecret" "admin"] (sessions now)).
Proof.
  intros root id srv0 srv trace now.
  assert (Forall (for_session 7%N (fun r => writes_session r = false)) trace)
    as Hall.
  { repeat constructor. }
  destruct (@snapshot_decides_authorization sample_platform 7%N root srv trace
              eq_refl Hall) as (Hmain & _ & _).
  destruct (Hmain trace [] eq_refl) as (Hsnap & _ & Hadmin & _).
  destruct (Hadmin eq_refl) as (Hpage & Hroutes).
  destruct (Hroutes id) as (Hpromote & _).
  split; [reflexivity | split; [reflexivity | split; [exact Hsnap|]]].
  split; [exact Hpage|].
  refine (eq_trans Hpromote _). reflexivity.
Defined.

(** ** Lifetime of a session *)

Section SessionLifetime.
Import SessionManager.

Lemma steps_expiry (tok : N) (bound : Z) (os : list op) (st : gmap N entry) :
  forallb (fun o => negb (creates tok o)) os = true ->
  (forall e, st !! tok = Some e -> (expiry e <= bound)%Z) ->
  forall e, steps os st !! tok = Some e -> (expiry e <= bound)%Z.
Proof.
  revert st. induction os as [|o os IH]; intros st Hos Hst; [exact Hst|].
  cbn [forallb] in Hos. apply andb_prop in Hos as [Ho Hos].
  cbn [steps]. apply IH; [exact Hos|].
  intros e. destruct o as [now tok' snap|now tok'|tok']; cbn [step]; auto.
  - unfold create_session. cbn [fst creates] in *.
    apply negb_true_iff, N.eqb_neq in Ho.
    rewrite lookup_insert_ne by congruence. auto.
  - unfold destroy_session.
    destruct (decide (tok' = tok)) as [->|Hne].
    + rewrite lookup_delete_eq. discriminate.
    + rewrite lookup_delete_ne by done. auto.
Qed.

Context `{Platform}.

(** C8: a token loads as none once its session was destroyed, and loads as
    none from the moment one hour has passed since the session was
    created, whatever loads, destroys and creations of other sessions came
    in between, while before that moment it loads the snapshot; destroying
    twice is destroying once, and destroying a token that has no session
    leaves the store as it is.  In the source, /logout destroys the
    session of the request and redirects to the landing page. *)
Theorem session_lifetime :
  (forall st tok now,
     load_session now (Some tok) (destroy_session tok st) = None) /\
  (forall st tok snap t0 os now,
     forallb (fun o => negb (creates tok o)) os = true ->
     (t0 + TTL <= now)%Z ->
     load_session now (Some tok) (steps os (fst (create_session t0 tok snap st)))
       = None) /\
  (forall st tok snap t0 now,
     (now < t0 + TTL)%Z ->
     load_session now (Some tok) (fst (create_session t0 tok snap st))
       = Some snap) /\
  (forall st tok,
     destroy_session tok (destroy_session tok st) = destroy_session tok st) /\
  (forall st tok, st !! tok = None -> destroy_session tok st = st) /\
  (forall sid srv,
     fst (serve sid GET_logout srv) = redirect "/" /\
     sessions (snd (serve sid GET_logout srv)) !! sid = None).
Proof.
  split; [|split; [|split; [|split; [|split]]]].
  - intros st tok now. unfold load_session, destroy_session.
    by rewrite lookup_delete_eq.
  - intros st tok snap t0 os now Hos Hnow. unfold load_session.
    destruct (steps os _ !! tok) as [e|] eqn:He; [|reflexivity].
    assert (expiry e <= t0 + TTL)%Z as Hexp.
    { apply (steps_expiry tok (t0 + TTL)%Z os
               (fst (create_session t0 tok snap st)) Hos) with (e := e);
        [|exact He].
      intros e'. unfold create_session. cbn [fst].
      rewrite lookup_insert_eq. intros [= <-]. cbn [expiry]. lia. }
    destruct (Z.ltb_spec now (expiry e)); [lia | reflexivity].
  - intros st tok snap t0 now Hnow. unfold load_session, create_session.
    cbn [fst]. rewrite lookup_insert_eq. cbn [expiry snapshot].
    destruct (Z.ltb_spec now (t0 + TTL)); [reflexivity | lia].
  - intros st tok. unfold destroy_session. apply delete_delete_eq.
  - intros st tok Hnone. unfold destroy_session. by apply delete_id.
  - intros sid srv. split; [reflexivity|].
    unfold serve, save. cbn. apply lookup_delete_eq.
Qed.
End SessionLifetime.

Lemma session_lifetime_witness :
  let snap := SessionUser.mk "A" "a@x.com" "user" in
  let st := fst (SessionManager.create_session 0 5%N snap ∅) in
  let os := [SessionManager.Load 10 (Some 5%N);
             SessionManager.Create 20 6%N snap;
             SessionManager.Destroy 6%N] in
  SessionManager.load_session 3599999 (Some 5%N) st = Some snap /\
  SessionManager.load_session 3600000 (Some 5%N) (SessionManager.steps os st) = None /\
  SessionManager.load_session 1 (Some 5%N) (SessionManager.destroy_session 5%N st) = None.
Proof.
  intros snap st os.
  destruct (@session_lifetime sample_platform)
    as (Hdestroy & Hexpired & Hactive & _).
  split; [|split].
  - apply Hactive. reflexivity.
  - apply Hexpired; [reflexivity | unfold SessionManager.TTL; lia].
  - apply Hdestroy.
Defined.

(** * Further properties of the routes *)

(** ** The role routes behind their two gates *)

Lemma role_route_by_admin (ut : string) db req u :
  session_user req = Some u ->
  SessionUser.user_type u = "admin" ->
  guarded [isAuthenticated; isAdmin] (set_role ut) db req = set_role ut db req.
Proof.
  intros Hs Hrole. apply String.eqb_eq in Hrole.
  cbn [guarded]. unfold isAuthenticated, isAdmin. rewrite Hs, Hrole. reflexivity.
Qed.

(** X1: /promote/:id and /demote/:id, whatever the [:id], answer a request
    without a session with the redirect to /login (the first gate decides,
    not the 403 of the second), and a session whose role is not admin with
    the 403 page; in both cases the collection and the session are left as
    they were. *)
Theorem role_routes_refuse (db : list User.t) (req : Request) :
  (session_user req = None ->
     get_promote db req = mkOutcome (redirect "/login") db None /\
     get_demote db req = mkOutcome (redirect "/login") db None) /\
  (forall u, session_user req = Some u ->
     SessionUser.user_type u <> "admin" ->
     get_promote db req = mkOutcome (render 403 "403" no_locals) db (Some u) /\
     get_demote db req = mkOutcome (render 403 "403" no_locals) db (Some u)).
Proof.
  unfold get_promote, get_demote. cbn [guarded]. unfold isAuthenticated, isAdmin.
  split.
  - intros ->. split; reflexivity.
  - intros u -> Hrole. apply String.eqb_neq in Hrole. rewrite Hrole.
    split; reflexivity.
Qed.

Lemma role_routes_refuse_witness :
  let db := [User.mk 1%N "A" "a@x.com" "digest" "user"] in
  let alice := SessionUser.mk "A" "a@x.com" "user" in
  let id := "000000000000000000000001" in
  get_promote db (mkRequest None [] id) = mkOutcome (redirect "/login") db None /\
  get_promote db (mkRequest (Some alice) [] id)
    = mkOutcome (render 403 "403" no_locals) db (Some alice).
Proof.
  intros db alice id. split.
  - apply (role_routes_refuse db (mkRequest None [] id)). reflexivity.
  - apply (role_routes_refuse db (mkRequest (Some alice) [] id) : _ /\ _).
    + reflexivity.
    + discriminate.
Defined.

(** X2: for an admin session, /promote/:id and /demote/:id redirect to
    /admin exactly when the [:id] is a string of 24 hex digits; otherwise
    the cast error is all the handler produces and the collection is
    unchanged.  In particular an [:id] whose length is not 24 never gets
    the redirect. *)
Theorem role_routes_cast (db : list User.t) (req : Request) (u : SessionUser.t) :
  session_user req = Some u ->
  SessionUser.user_type u = "admin" ->
  (res (get_promote db req) = redirect "/admin"
     <-> String.length (params_id req) = 24 /\ all_hex (params_id req) = true) /\
  (res (get_demote db req) = redirect "/admin"
     <-> String.length (params_id req) = 24 /\ all_hex (params_id req) = true) /\
  (~ (String.length (params_id req) = 24 /\ all_hex (params_id req) = true) ->
     get_promote db req
       = mkOutcome (unhandled (CastError (params_id req))) db (Some u) /\
     get_demote db req
       = mkOutcome (unhandled (CastError (params_id req))) db (Some u)).
Proof.
  intros Hs Hrole. unfold get_promote, get_demote, promote, demote.
  rewrite !(role_route_by_admin _ _ _ _ Hs Hrole).
  unfold set_role, User.updateOne. rewrite Hs.
  rewrite <- !castObjectId_is_Some.
  split; [|split].
  - destruct (castObjectId (params_id req)); simpl; split; intros Hx;
      first [done | by eexists | by destruct Hx].
  - destruct (castObjectId (params_id req)); simpl; split; intros Hx;
      first [done | by eexists | by destruct Hx].
  - destruct (castObjectId (params_id req)) as [oid|]; [|done].
    intros Hx. destruct Hx. by eexists.
Qed.

Lemma role_routes_cast_witness :
  let root := SessionUser.mk "R" "r@x.com" "admin" in
  let db := [User.mk 1%N "A" "a@x.com" "digest" "user"] in
  get_demote db (mkRequest (Some root) [] "aaaaaaaaaaaa")
    = mkOutcome (unhandled (CastError "aaaaaaaaaaaa")) db (Some root) /\
  res (get_promote db (mkRequest (Some root) [] "00000000000000000000000A"))
    = redirect "/admin".
Proof.
  intros root db.
  split.
  - destruct (role_routes_cast db (mkRequest (Some root) [] "aaaaaaaaaaaa") root
                eq_refl eq_refl) as (_ & _ & Hfail).
    apply Hfail. simpl. intros [Hlen _]. discriminate Hlen.
  - destruct (role_routes_cast db
                (mkRequest (Some root) [] "00000000000000000000000A") root
                eq_refl eq_refl) as (Hok & _).
    apply Hok. split; reflexivity.
Defined.

(** ** Login *)

Section LoginOutcome.
Context `{Platform}.

(** X3: a login redirects to /members exactly when the body passes the
    schema, some record has the email, and the password verifies against
    the digest of the first such record; the session then holds the name,
    email and role of that record, replacing whatever the request's session
    held. *)
Theorem login_succeeds_iff (db : list User.t) (req : Request) :
  (res (post_login db req) = redirect "/members" <->
   exists v user,
     login_schema (body req) = inr v /\
     User.findOne (lv_email v) db = Some user /\
     bcrypt_compare (lv_password v) (User.password user) = true) /\
  (forall v user,
     login_schema (body req) = inr v ->
     User.findOne (lv_email v) db = Some user ->
     bcrypt_compare (lv_password v) (User.password user) = true ->
     post_login db req
       = mkOutcome (redirect "/members") db (Some (snapshot_of user))).
Proof.
  unfold post_login. split.
  - destruct (login_schema (body req)) as [e|v];
      [split; [discriminate | intros (? & ? & ? & _); discriminate]|].
    destruct (User.findOne (lv_email v) db) as [user|] eqn:Hu.
    + destruct (bcrypt_compare _ _) eqn:Hc; simpl.
      * split; [|done]. intros _. exists v, user. done.
      * split; [discriminate|].
        intros (v' & user' & [= <-] & Hu' & Hc'). congruence.
    + split; [discriminate|].
      intros (v' & user' & [= <-] & Hu' & _). congruence.
  - intros v user -> -> ->. reflexivity.
Qed.

(** X4: a login never changes the collection; unless it redirects to
    /members it leaves the session of the request as it was; and its answer
    is that redirect or an inline message, never a rendered page. *)
Theorem login_frame (db : list User.t) (req : Request) :
  users (post_login db req) = db /\
  (res (post_login db req) <> redirect "/members" ->
     session (post_login db req) = session_user req) /\
  (res (post_login db req) = redirect "/members" \/
   exists html, res (post_login db req) = send html).
Proof.
  unfold post_login.
  destruct (login_schema (body req)) as [e|v]; simpl.
  { split; [done | split; [done | right; by eexists]]. }
  destruct (User.findOne (lv_email v) db) as [user|]; simpl.
  - destruct (bcrypt_compare _ _); simpl.
    + split; [done | split; [done | by left]].
    + split; [done | split; [done | right; by eexists]].
  - split; [done | split; [done | right; by eexists]].
Qed.
End LoginOutcome.

Lemma login_frame_witness :
  let db := [User.mk 1%N "A" "a@x.com" "ssecret" "user"] in
  let bob := SessionUser.mk "B" "b@x.com" "admin" in
  let req := mkRequest (Some bob) (login_body "a@x.com" "wrong") EmptyString in
  @post_login sample_platform db req
    = mkOutcome (send (paragraph "Invalid password" ++ retry "/login")) db (Some bob) /\
  session (@post_login sample_platform db req) = Some bob.
Proof.
  intros db bob req.
  destruct (@login_frame sample_platform db req) as (_ & Hkeep & _).
  split; [reflexivity|]. apply Hkeep. discriminate.
Defined.

Lemma login_succeeds_iff_witness :
  let alice := User.mk 1%N "A" "a@x.com" "ssecret" "user" in
  let bob := SessionUser.mk "B" "b@x.com" "admin" in
  let req := mkRequest (Some bob) (login_body "a@x.com" "secret") EmptyString in
  @post_login sample_platform [alice] req
    = mkOutcome (redirect "/members") [alice]
        (Some (SessionUser.mk "A" "a@x.com" "user")).
Proof.
  intros alice bob req.
  destruct (@login_succeeds_iff sample_platform [alice] req) as (_ & Hok).
  apply (Hok (mkLoginValue "a@x.com" "secret") alice); reflexivity.
Defined.

(** ** Signup *)

Lemma findOne_email e db u : User.findOne e db = Some u -> User.email u = e.
Proof.
  induction db as [|x db IH]; simpl; [discriminate|].
  destruct (String.eqb_spec (User.email x) e); [intros [= <-]; done | auto].
Qed.

Lemma findOne_app_old e db u new :
  User.findOne e db = Some u -> User.findOne e (db ++ new)%list = Some u.
Proof.
  induction db as [|x db IH]; simpl; [discriminate|].
  destruct (String.eqb (User.email x) e); auto.
Qed.

Section SignupOutcome.
Context `{Platform}.

(** X5: a signup that passes the schema adds exactly one record, after the
    records already stored and without touching them; the record holds the
    submitted name and email, a role that is user or admin, and a digest
    against which the submitted password verifies; the session of the
    request, whatever it held, becomes the snapshot of that record. *)
Theorem signup_stores_one_record oid salt db req v :
  signup_schema (body req) = inr v ->
  let o := post_signup oid salt db req in
  exists u,
    users o = (db ++ [u])%list /\
    (forall i, i < List.length db -> users o !! i = db !! i) /\
    List.length (users o) = S (List.length db) /\
    User._id u = oid /\
    body_get "name" (body req) = Some (FStr (User.name u)) /\
    body_get "email" (body req) = Some (FStr (User.email u)) /\
    (User.user_type u = "user" \/ User.user_type u = "admin") /\
    bcrypt_compare (sv_password v) (User.password u) = true /\
    body_get "password" (body req) = Some (FStr (sv_password v)) /\
    session o = Some (snapshot_of u) /\
    res o = redirect "/members".
Proof.
  intros Hv o. subst o. rewrite (post_signup_accepted _ _ _ _ _ Hv).
  apply signup_schema_inr in Hv as (Hn & He & Hp & Hu & _).
  apply Joi_string_required_inr in Hn as (Hn & _).
  apply Joi_string_required_inr in He as (He & _).
  apply Joi_string_required_inr in Hp as (Hp & _).
  apply Joi_string_valid_default_inr in Hu.
  eexists. cbn [users session res].
  split; [reflexivity|]. cbn [User._id User.name User.email User.user_type User.password].
  split; [intros i Hi; by apply lookup_app_l|].
  split; [rewrite length_app; simpl; lia|].
  split; [reflexivity|]. split; [exact Hn|]. split; [exact He|].
  split.
  { destruct Hu as [[_ ->]|[_ Hin]]; [by left|].
    simpl in Hin. destruct Hin as [<-|[<-|[]]]; [by left | by right]. }
  split; [apply bcrypt_compare_hash|]. split; [exact Hp|]. done.
Qed.

(** X6: the role is taken from the form.  A signup that passes the schema
    with the role field set to admin, sent without any session, leaves a
    session that passes both gates: the admin page then lists every record,
    the new one included, and the role routes are open to it. *)
Theorem signup_as_admin oid salt db req v :
  signup_schema (body req) = inr v ->
  body_get "user_type" (body req) = Some (FStr "admin") ->
  let o := post_signup oid salt db req in
  (forall b id, isAuthenticated (mkRequest (session o) b id) = next /\
                isAdmin (mkRequest (session o) b id) = next) /\
  get_admin (users o) (mkRequest (session o) [] EmptyString)
    = mkOutcome (render 200 "admin" (users_local (users o))) (users o) (session o) /\
  List.length (users o) = S (List.length db) /\
  (forall id target,
     castObjectId id = Some target ->
     users (get_promote (users o) (mkRequest (session o) [] id))
       = User.update_first target "admin" (users o)).
Proof.
  intros Hv Hrole o. subst o. rewrite (post_signup_accepted _ _ _ _ _ Hv).
  cbn [users session].
  assert (sv_user_type v = "admin") as ->.
  { apply signup_schema_inr in Hv as (_ & _ & _ & Hu & _).
    apply Joi_string_valid_default_inr in Hu.
    destruct Hu as [[Hu _]|[Hu _]]; congruence. }
  split; [intros b id; split; reflexivity|].
  split; [reflexivity|].
  split; [rewrite length_app; simpl; lia|].
  intros id target Hcast.
  unfold get_promote, promote, set_role, User.updateOne. cbn [guarded].
  unfold isAuthenticated, isAdmin. cbn. rewrite Hcast. reflexivity.
Qed.

(** X7: once a signup has passed the schema, a login with its email is
    never answered with User not found, whatever the collection held
    before: it redirects to /members or reports an invalid password. *)
Theorem login_finds_signed_up_email oid salt db req v su p :
  signup_schema (body req) = inr v ->
  5 <= String.length p <= 30 ->
  let o1 := post_signup oid salt db req in
  let o2 := post_login (users o1)
              (mkRequest su (login_body (sv_email v) p) EmptyString) in
  User.findOne (sv_email v) (users o1) <> None /\
  (res o2 = redirect "/members" \/
   res o2 = send (paragraph "Invalid password" ++ retry "/login")).
Proof.
  intros Hv Hp o1 o2. subst o2 o1.
  rewrite (post_signup_accepted _ _ _ _ _ Hv). cbn [users].
  destruct (signup_schema_credentials _ _ Hv) as (He1 & He2 & _).
  assert (exists u, User.findOne (sv_email v)
            (db ++ [User.mk oid (sv_name v) (sv_email v)
                      (bcrypt_hash salt (sv_password v)) (sv_user_type v)])%list
          = Some u) as (u & Hu).
  { destruct (User.findOne (sv_email v) db) as [u|] eqn:Hold.
    - exists u. by apply findOne_app_old.
    - eexists. by apply findOne_app_new. }
  split; [congruence|].
  unfold post_login. cbn [body].
  rewrite (login_schema_accepts _ _ He1 He2 Hp). cbn [lv_email lv_password].
  rewrite Hu. destruct (bcrypt_compare _ _); [by left | by right].
Qed.
End SignupOutcome.

Lemma signup_stores_one_record_witness :
  let old := User.mk 1%N "Old" "o@x.com" "digest" "user" in
  let req := mkRequest None
               [("name", FStr "A"); ("email", FStr "a@x.com");
                ("password", FStr "secret")] EmptyString in
  @signup_schema sample_platform (body req)
    = inr (mkSignupValue "A" "a@x.com" "secret" "user") /\
  exists u,
    users (@post_signup sample_platform 2%N "salt" [old] req) = [old; u] /\
    User.user_type u = "user" /\
    @bcrypt_compare sample_platform "secret" (User.password u) = true.
Proof.
  intros old req. split; [reflexivity|].
  destruct (@signup_stores_one_record sample_platform 2%N "salt" [old] req
              (mkSignupValue "A" "a@x.com" "secret" "user") eq_refl)
    as (u & Hu & _ & _ & _ & _ & _ & _ & Hc & _ & Hs & _).
  exists u. split; [exact Hu|]. split; [|exact Hc].
  injection Hs as _ _ Hrole. symmetry. exact Hrole.
Defined.

Lemma signup_as_admin_witness :
  let old := User.mk 1%N "Old" "o@x.com" "digest" "user" in
  let req := mkRequest None
               [("name", FStr "M"); ("email", FStr "m@x.com");
                ("password", FStr "secret"); ("user_type", FStr "admin")]
               EmptyString in
  let o := @post_signup sample_platform 2%N "salt" [old] req in
  isAdmin (mkRequest (session o) [] EmptyString) = next /\
  users (get_promote (users o)
           (mkRequest (session o) [] "000000000000000000000001"))
    = User.update_first 1%N "admin" (users o).
Proof.
  intros old req o.
  destruct (@signup_as_admin sample_platform 2%N "salt" [old] req
              (mkSignupValue "M" "m@x.com" "secret" "admin") eq_refl eq_refl)
    as (Hgates & _ & _ & Hpromote).
  split.
  - apply Hgates.
  - apply Hpromote. reflexivity.
Defined.

Lemma login_finds_signed_up_email_witness :
  let old := User.mk 1%N "Old" "a@x.com" "digest" "user" in
  let req := mkRequest None
               [("name", FStr "A"); ("email", FStr "a@x.com");
                ("password", FStr "secret")] EmptyString in
  let o1 := @post_signup sample_platform 2%N "salt" [old] req in
  User.findOne "a@x.com" (users o1) <> None /\
  (res (@post_login sample_platform (users o1)
          (mkRequest None (login_body "a@x.com" "secret") EmptyString))
     = redirect "/members" \/
   res (@post_login sample_platform (users o1)
          (mkRequest None (login_body "a@x.com" "secret") EmptyString))
     = send (paragraph "Invalid password" ++ retry "/login")).
Proof.
  intros old req o1.
  apply (@login_finds_signed_up_email sample_platform 2%N "salt" [old] req
           (mkSignupValue "A" "a@x.com" "secret" "user") None "secret" eq_refl).
  simpl. lia.
Defined.

(** ** What the routes keep of the two collections *)

Lemma same_but_role_identity target (db db' : list User.t) :
  Forall2 (same_but_role target) db db' -> map identity db' = map identity db.
Proof.
  induction 1 as [|u u' db db' (Hi & Hn & He & Hp & _) _ IH]; [reflexivity|].
  simpl. unfold identity at 1 3. rewrite Hi, Hn, He, Hp, IH. reflexivity.
Qed.

Lemma guarded_users_cases gates h (db : list User.t) req :
  users (guarded gates h db req) = db \/
  users (guarded gates h db req) = users (h db req).
Proof.
  induction gates as [|g gates IH]; simpl; [by right|].
  destruct (g req); [exact IH | by left].
Qed.

Lemma update_first_shaped `{Platform} oid ut db :
  ut = "user" \/ ut = "admin" ->
  Forall schema_shaped db -> Forall schema_shaped (User.update_first oid ut db).
Proof.
  intros Hut. induction 1 as [|u db Hu Hdb IH]; simpl; [constructor|].
  destruct (N.eqb (User._id u) oid).
  - constructor; [|exact Hdb].
    destruct Hu as (_ & Hrest). split; [exact Hut | exact Hrest].
  - constructor; [exact Hu | exact IH].
Qed.

Lemma session_backed_mono (db db' : list User.t) (s : SessionUser.t) :
  (exists k, map identity db' = (map identity db ++ k)%list) ->
  session_backed db s -> session_backed db' s.
Proof.
  intros (k & Hk) (u & Hin & Hn & He).
  assert (In (identity u) (map identity db')) as Hin'.
  { rewrite Hk. apply in_or_app. left. by apply in_map. }
  apply in_map_iff in Hin' as (u' & Hid & Hu').
  exists u'. split; [exact Hu'|].
  injection Hid as _ Hn' He' _. split; congruence.
Qed.

Lemma save_lookup sid sid' su (m : gmap N SessionUser.t) :
  save sid su m !! sid' = if decide (sid = sid') then su else m !! sid'.
Proof.
  unfold save. destruct su as [u|]; case_decide as Hd; subst.
  - apply lookup_insert_eq.
  - by apply lookup_insert_ne.
  - apply lookup_delete_eq.
  - by apply lookup_delete_ne.
Qed.

Section Store.
Context `{Platform}.

Lemma handle_users_readonly r db su :
  writes_users r = false -> users (handle r db su) = db.
Proof.
  destruct r; simpl; try discriminate; intros _; try reflexivity.
  - unfold post_login. destruct (login_schema _); [reflexivity|].
    destruct (User.findOne _ _); [|reflexivity].
    by destruct (bcrypt_compare _ _).
  - unfold get_members. cbn [guarded]. unfold isAuthenticated.
    by destruct su.
  - unfold get_admin, admin. cbn [guarded]. unfold isAuthenticated.
    destruct su as [u|]; [|reflexivity]. cbn [session_user].
    by destruct (negb _).
Qed.

Lemma handle_identity_prefix r db su :
  exists k, map identity (users (handle r db su)) = (map identity db ++ k)%list.
Proof.
  destruct (writes_users r) eqn:Hw.
  - destruct r; try discriminate Hw; cbn [handle].
    + unfold post_signup. destruct (signup_schema _) as [e|v]; cbn [users].
      * exists []. by rewrite app_nil_r.
      * eexists. unfold User.create. cbn [users]. apply map_app.
    + exists []. rewrite app_nil_r. apply (same_but_role_identity (castObjectId id)).
      apply (guarded_frame _ [isAuthenticated; isAdmin] promote).
      apply (set_role_frame "admin" _ (mkRequest _ [] id)).
    + exists []. rewrite app_nil_r. apply (same_but_role_identity (castObjectId id)).
      apply (guarded_frame _ [isAuthenticated; isAdmin] demote).
      apply (set_role_frame "user" _ (mkRequest _ [] id)).
  - exists []. rewrite app_nil_r. by rewrite handle_users_readonly.
Qed.

Lemma run_identity_prefix trace srv :
  exists k, map identity (collection (run trace srv))
            = (map identity (collection srv) ++ k)%list.
Proof.
  revert srv. induction trace as [|[sid r] trace IH]; intros srv.
  - exists []. by rewrite app_nil_r.
  - cbn [run]. destruct (IH (snd (serve sid r srv))) as (k2 & Hk2).
    unfold serve in Hk2 at 2. cbn [snd collection] in Hk2.
    destruct (handle_identity_prefix r (collection srv) (sessions srv !! sid))
      as (k1 & Hk1).
    exists (k1 ++ k2)%list. rewrite Hk2, Hk1. by rewrite <- app_assoc.
Qed.

(** X8: no sequence of requests deletes or reorders a record, or changes
    the [_id], name, email or stored password of one: whatever is served, a
    record keeps its position and these four fields, and the collection
    never gets shorter.  Only the role of a record can change. *)
Theorem records_are_kept (trace : list (N * route)) (srv : Server)
    (i : nat) (u : User.t) :
  collection srv !! i = Some u ->
  List.length (collection srv) <= List.length (collection (run trace srv)) /\
  exists u', collection (run trace srv) !! i = Some u' /\
    User._id u' = User._id u /\ User.name u' = User.name u /\
    User.email u' = User.email u /\ User.password u' = User.password u.
Proof.
  intros Hu. destruct (run_identity_prefix trace srv) as (k & Hk).
  split.
  - apply (f_equal List.length) in Hk.
    rewrite length_app, !length_map in Hk. lia.
  - assert (map identity (collection (run trace srv)) !! i = Some (identity u))
      as Hi.
    { rewrite Hk. rewrite lookup_app_l.
      - by rewrite list_lookup_fmap, Hu.
      - rewrite length_map. by eapply lookup_lt_Some. }
    rewrite list_lookup_fmap in Hi.
    destruct (collection (run trace srv) !! i) as [u'|]; [|discriminate].
    exists u'. split; [reflexivity|].
    simpl in Hi. injection Hi as Hid Hn He Hp. done.
Qed.

Lemma handle_shaped r db su :
  Forall schema_shaped db -> Forall schema_shaped (users (handle r db su)).
Proof.
  intros Hdb. destruct (writes_users r) eqn:Hw;
    [|by rewrite handle_users_readonly].
  destruct r; try discriminate Hw; cbn [handle].
  - unfold post_signup. destruct (signup_schema _) as [e|v] eqn:Hv; [exact Hdb|].
    unfold User.create. cbn [users]. apply Forall_app. split; [exact Hdb|].
    apply List.Forall_cons; [|apply List.Forall_nil].
    apply signup_schema_inr in Hv as (Hn & He & _ & Hu & _).
    apply Joi_string_required_inr in Hn as (_ & Hn1 & Hn2).
    apply Joi_string_required_inr in He as (_ & He1 & He2).
    apply Joi_string_valid_default_inr in Hu.
    inversion_clear Hn2 as [|? ? Hn3 _]. inversion_clear He2 as [|? ? He3 _].
    unfold schema_shaped. simpl in *. split; [|done].
    destruct Hu as [[_ ->]|[_ [<-|[<-|[]]]]]; [by left | by left | by right].
  - unfold get_promote.
    destruct (guarded_users_cases [isAuthenticated; isAdmin] promote db
                (mkRequest su [] id)) as [->| ->]; [exact Hdb|].
    unfold promote, set_role, User.updateOne.
    destruct (castObjectId _); [|exact Hdb].
    apply update_first_shaped; [by right | exact Hdb].
  - unfold get_demote.
    destruct (guarded_users_cases [isAuthenticated; isAdmin] demote db
                (mkRequest su [] id)) as [->| ->]; [exact Hdb|].
    unfold demote, set_role, User.updateOne.
    destruct (castObjectId _); [|exact Hdb].
    apply update_first_shaped; [by left | exact Hdb].
Qed.

(** X9: the routes keep the collection in the shape of the signup schema.
    If every record has a role that is user or admin, a non-empty name of
    at most 30 characters and a non-empty email of valid syntax, the same
    holds after any sequence of requests. *)
Theorem records_stay_schema_shaped (trace : list (N * route)) (srv : Server) :
  Forall schema_shaped (collection srv) ->
  Forall schema_shaped (collection (run trace srv)).
Proof.
  revert srv. induction trace as [|[sid r] trace IH]; intros srv Hsrv;
    [exact Hsrv|].
  cbn [run]. apply IH. unfold serve. cbn [snd collection].
  by apply handle_shaped.
Qed.

Lemma handle_session_backed r db su s :
  session (handle r db su) = Some s ->
  su = Some s \/ session_backed (users (handle r db su)) s.
Proof.
  destruct (writes_session r) eqn:Hw.
  - destruct r; try discriminate Hw; cbn [handle].
    + unfold post_signup. destruct (signup_schema _) as [e|v]; cbn [session users].
      * by left.
      * intros [= <-]. right. eexists. split; [apply in_or_app; right; by left|].
        done.
    + unfold post_login. destruct (login_schema _) as [e|v]; cbn [session users];
        [by left|].
      destruct (User.findOne _ _) as [user|] eqn:Hu; cbn [session users];
        [|by left].
      destruct (bcrypt_compare _ _); cbn [session users]; [|by left].
      intros [= <-]. right. exists user.
      split; [by eapply findOne_In | done].
    + discriminate.
  - rewrite (handle_keeps_session _ _ _ Hw). by left.
Qed.

Lemma serve_sessions_backed sid r srv :
  sessions_backed srv -> sessions_backed (snd (serve sid r srv)).
Proof.
  intros Hsrv sid' s. unfold serve. cbn [snd sessions collection].
  rewrite save_lookup.
  pose proof (handle_identity_prefix r (collection srv) (sessions srv !! sid))
    as Hpre.
  case_decide as Hd.
  - subst sid'. intros Hs.
    destruct (handle_session_backed _ _ _ _ Hs) as [Hold|Hnew]; [|exact Hnew].
    eapply session_backed_mono; [exact Hpre|]. by eapply Hsrv.
  - intros Hs. eapply session_backed_mono; [exact Hpre|]. by eapply Hsrv.
Qed.

(** X10: every stored session is that of a stored user.  If each session
    snapshot carries the name and email of some record, then the same holds
    after any sequence of requests: signup and login build the snapshot
    from a record, and no route removes a record or renames it. *)
Theorem sessions_stay_backed (trace : list (N * route)) (srv : Server) :
  sessions_backed srv -> sessions_backed (run trace srv).
Proof.
  revert srv. induction trace as [|[sid r] trace IH]; intros srv Hsrv;
    [exact Hsrv|].
  cbn [run]. apply IH. by apply serve_sessions_backed.
Qed.

(** X12: the pages have no effect.  GET /, /signup, /login, /members and
    /admin and an unmatched request, served for any session, leave the
    users and the sessions exactly as they were. *)
Theorem pages_change_nothing (sid : N) (r : route) (srv : Server) :
  writes_session r = false -> writes_users r = false ->
  snd (serve sid r srv) = srv.
Proof.
  intros Hs Hu. pose proof (serve_keeps_sessions sid r srv Hs) as Hsess.
  destruct srv as [db ss]. unfold serve in *. cbn [snd sessions collection] in *.
  rewrite Hsess, (handle_users_readonly _ _ _ Hu). reflexivity.
Qed.
End Store.

Lemma records_are_kept_witness :
  let alice := User.mk 1%N "A" "a@x.com" "digest" "user" in
  let srv := mkServer [alice] {[7%N := SessionUser.mk "R" "r@x.com" "admin"]} in
  let trace :=
    [(3%N, POST_signup [("name", FStr "B"); ("email", FStr "b@x.com");
                        ("password", FStr "secret")] 2%N "salt");
     (7%N, GET_promote "000000000000000000000001")] in
  collection srv !! 0 = Some alice /\
  collection (@run sample_platform trace srv) !! 0
    = Some (User.mk 1%N "A" "a@x.com" "digest" "admin") /\
  exists u',
    collection (@run sample_platform trace srv) !! 0 = Some u' /\
    User.email u' = "a@x.com" /\ User.password u' = "digest".
Proof.
  intros alice srv trace.
  destruct (@records_are_kept sample_platform trace srv 0 alice eq_refl)
    as (_ & u' & Hu' & _ & _ & He & Hp).
  split; [reflexivity | split; [reflexivity|]].
  exists u'. split; [exact Hu' | split; [exact He | exact Hp]].
Defined.

Lemma records_stay_schema_shaped_witness :
  let srv := mkServer [User.mk 1%N "A" "a@x.com" "digest" "user"]
               {[7%N := SessionUser.mk "R" "r@x.com" "admin"]} in
  let trace :=
    [(3%N, POST_signup [("name", FStr "B"); ("email", FStr "b@x.com");
                        ("password", FStr "secret"); ("user_type", FStr "admin")]
             2%N "salt");
     (7%N, GET_promote "000000000000000000000001")] in
  Forall (@schema_shaped sample_platform) (collection srv) /\
  Forall (@schema_shaped sample_platform) (collection (@run sample_platform trace srv)).
Proof.
  intros srv trace.
  assert (Forall (@schema_shaped sample_platform) (collection srv)) as Hsrv.
  { apply List.Forall_cons; [|apply List.Forall_nil].
    unfold schema_shaped. simpl.
    split; [by left | split; [discriminate | split; [lia | split; [discriminate | reflexivity]]]]. }
  split; [exact Hsrv|].
  exact (@records_stay_schema_shaped sample_platform trace srv Hsrv).
Defined.

Lemma sessions_stay_backed_witness :
  let srv := mkServer [User.mk 1%N "A" "a@x.com" "ssecret" "user"] ∅ in
  let trace := [(5%N, POST_login (login_body "a@x.com" "secret"));
                (5%N, GET_members)] in
  sessions_backed srv /\
  sessions (@run sample_platform trace srv) !! 5%N
    = Some (SessionUser.mk "A" "a@x.com" "user") /\
  sessions_backed (@run sample_platform trace srv).
Proof.
  intros srv trace.
  assert (sessions_backed srv) as Hsrv.
  { intros sid s Hs. simpl in Hs. rewrite lookup_empty in Hs. discriminate. }
  split; [exact Hsrv | split; [reflexivity|]].
  exact (@sessions_stay_backed sample_platform trace srv Hsrv).
Defined.

Lemma pages_change_nothing_witness :
  let srv := mkServer [User.mk 1%N "A" "a@x.com" "ssecret" "user"]
               {[7%N := SessionUser.mk "A" "a@x.com" "user"]} in
  snd (@serve sample_platform 7%N GET_admin srv) = srv /\
  snd (@serve sample_platform 8%N GET_members srv) = srv.
Proof.
  intros srv. split.
  - apply (@pages_change_nothing sample_platform 7%N GET_admin srv); reflexivity.
  - apply (@pages_change_nothing sample_platform 8%N GET_members srv); reflexivity.
Defined.

(** ** How role changes compose *)

Lemma update_first_twice oid a b db :
  User.update_first oid a (User.update_first oid b db) = User.update_first oid a db.
Proof.
  induction db as [|u db IH]; simpl; [reflexivity|].
  destruct (N.eqb (User._id u) oid) eqn:Hu; simpl; rewrite Hu.
  - reflexivity.
  - by rewrite IH.
Qed.

Lemma update_first_comm oid1 oid2 a b db :
  oid1 <> oid2 ->
  User.update_first oid1 a (User.update_first oid2 b db)
    = User.update_first oid2 b (User.update_first oid1 a db).
Proof.
  intros Hne. induction db as [|u db IH]; simpl; [reflexivity|].
  destruct (N.eqb_spec (User._id u) oid1) as [H1|H1];
    destruct (N.eqb_spec (User._id u) oid2) as [H2|H2]; simpl.
  - congruence.
  - rewrite (proj2 (N.eqb_eq _ _) H1), (proj2 (N.eqb_neq _ _) H2). reflexivity.
  - rewrite (proj2 (N.eqb_neq _ _) H1), (proj2 (N.eqb_eq _ _) H2). reflexivity.
  - rewrite (proj2 (N.eqb_neq _ _) H1), (proj2 (N.eqb_neq _ _) H2).
    by rewrite IH.
Qed.

Lemma set_role_users ut db req :
  users (set_role ut db req)
    = match castObjectId (params_id req) with
      | Some oid => User.update_first oid ut db
      | None => db
      end.
Proof.
  unfold set_role, User.updateOne. by destruct (castObjectId _).
Qed.

(** X13: for one [:id], the last role change by an admin session is the
    one that counts: promoting twice gives what promoting once gives, and a
    demotion after a promotion (or the reverse) gives what it gives alone.
    This holds for an [:id] that does not cast too, where nothing changes. *)
Theorem role_last_write_wins (db : list User.t) (req : Request) (u : SessionUser.t) :
  session_user req = Some u ->
  SessionUser.user_type u = "admin" ->
  users (get_promote (users (get_promote db req)) req) = users (get_promote db req) /\
  users (get_demote (users (get_promote db req)) req) = users (get_demote db req) /\
  users (get_promote (users (get_demote db req)) req) = users (get_promote db req) /\
  users (get_demote (users (get_demote db req)) req) = users (get_demote db req).
Proof.
  intros Hs Hrole. unfold get_promote, get_demote, promote, demote.
  rewrite !(role_route_by_admin _ _ _ _ Hs Hrole), !set_role_users.
  destruct (castObjectId (params_id req)); [|done].
  rewrite !update_first_twice. done.
Qed.

(** X14: role changes by admin sessions on two different ids commute: the
    collection after promoting one record and demoting another does not
    depend on which request came first. *)
Theorem role_changes_commute (db : list User.t) (req1 req2 : Request)
    (u1 u2 : SessionUser.t) (oid1 oid2 : ObjectId) :
  session_user req1 = Some u1 -> SessionUser.user_type u1 = "admin" ->
  session_user req2 = Some u2 -> SessionUser.user_type u2 = "admin" ->
  castObjectId (params_id req1) = Some oid1 ->
  castObjectId (params_id req2) = Some oid2 ->
  oid1 <> oid2 ->
  users (get_demote (users (get_promote db req1)) req2)
    = users (get_promote (users (get_demote db req2)) req1).
Proof.
  intros Hs1 Hr1 Hs2 Hr2 Hc1 Hc2 Hne.
  unfold get_promote, get_demote, promote, demote.
  rewrite !(role_route_by_admin _ _ _ _ Hs1 Hr1),
          !(role_route_by_admin _ _ _ _ Hs2 Hr2), !set_role_users.
  rewrite Hc1, Hc2. symmetry. by apply update_first_comm.
Qed.

Lemma role_last_write_wins_witness :
  let root := SessionUser.mk "R" "r@x.com" "admin" in
  let db := [User.mk 1%N "A" "a@x.com" "digest" "user"] in
  let req := mkRequest (Some root) [] "000000000000000000000001" in
  users (get_demote (users (get_promote db req)) req) = db /\
  users (get_promote (users (get_promote db req)) req)
    = [User.mk 1%N "A" "a@x.com" "digest" "admin"].
Proof.
  intros root db req.
  destruct (role_last_write_wins db req root eq_refl eq_refl)
    as (Hpp & Hpd & _ & _).
  split.
  - rewrite Hpd. reflexivity.
  - rewrite Hpp. reflexivity.
Defined.

Lemma role_changes_commute_witness :
  let root := SessionUser.mk "R" "r@x.com" "admin" in
  let db := [User.mk 1%N "A" "a@x.com" "digest" "user";
             User.mk 2%N "B" "b@x.com" "digest" "admin"] in
  let req1 := mkRequest (Some root) [] "000000000000000000000001" in
  let req2 := mkRequest (Some root) [] "000000000000000000000002" in
  users (get_demote (users (get_promote db req1)) req2)
    = users (get_promote (users (get_demote db req2)) req1).
Proof.
  intros root db req1 req2.
  apply (role_changes_commute db req1 req2 root root 1%N 2%N);
    first [reflexivity | discriminate].
Defined.

Lemma findOne_update_first e ut db u :
  User.findOne e db = Some u ->
  lookup_id (User._id u) db = Some u ->
  User.findOne e (User.update_first (User._id u) ut db)
    = Some (User.set_user_type ut u).
Proof.
  induction db as [|x db IH]; simpl; [discriminate|].
  destruct (String.eqb_spec (User.email x) e) as [Hxe|Hxe].
  - intros [= ->]. rewrite N.eqb_refl. intros _. simpl.
    rewrite Hxe, String.eqb_refl. reflexivity.
  - intros Hfind. pose proof (findOne_email _ _ _ Hfind) as Hue.
    destruct (N.eqb (User._id x) (User._id u)).
    + intros [= ->]. congruence.
    + intros Hid. simpl. apply String.eqb_neq in Hxe. rewrite Hxe. by apply IH.
Qed.

Section Relogin.
Context `{Platform}.

(** X15: a new login picks up a role change.  When the record a login
    finds is the one an admin session promoted (resp. demoted) by its id,
    the login after that change attaches the role admin (resp. user),
    whatever role the record had.  The record must be the first one with
    its [_id], as it is when ids are unique. *)
Theorem relogin_takes_new_role (db : list User.t) (areq req : Request)
    (a : SessionUser.t) (v : LoginValue) (user : User.t) :
  session_user areq = Some a ->
  SessionUser.user_type a = "admin" ->
  castObjectId (params_id areq) = Some (User._id user) ->
  login_schema (body req) = inr v ->
  User.findOne (lv_email v) db = Some user ->
  lookup_id (User._id user) db = Some user ->
  bcrypt_compare (lv_password v) (User.password user) = true ->
  session (post_login (users (get_promote db areq)) req)
    = Some (SessionUser.mk (User.name user) (User.email user) "admin") /\
  session (post_login (users (get_demote db areq)) req)
    = Some (SessionUser.mk (User.name user) (User.email user) "user").
Proof.
  intros Hs Hrole Hcast Hv Hfind Hid Hc.
  unfold get_promote, get_demote, promote, demote.
  rewrite !(role_route_by_admin _ _ _ _ Hs Hrole), !set_role_users, Hcast.
  unfold post_login. rewrite Hv.
  rewrite !(findOne_update_first _ _ _ _ Hfind Hid).
  cbn [User.set_user_type User.password User.name User.email User.user_type].
  rewrite Hc. split; reflexivity.
Qed.

(** X16: after /logout the session of the request is closed and nothing
    else has changed: the users and every other session are as before,
    each route behind [isAuthenticated] answers that session id with the
    redirect to /login and changes nothing, and a second /logout changes
    nothing either. *)
Theorem logout_closes_session (sid : N) (srv : Server) (r : route) :
  gated r = true ->
  let srv' := snd (serve sid GET_logout srv) in
  collection srv' = collection srv /\
  (forall sid', sid' <> sid -> sessions srv' !! sid' = sessions srv !! sid') /\
  serve sid r srv' = (redirect "/login", srv') /\
  serve sid GET_logout srv' = (redirect "/", srv').
Proof.
  intros Hr srv'.
  assert (sessions srv' !! sid = None) as Hnone.
  { subst srv'. unfold serve, save. cbn. apply lookup_delete_eq. }
  split; [reflexivity|]. split.
  { intros sid' Hne. subst srv'. unfold serve, save. cbn.
    by apply lookup_delete_ne. }
  destruct srv' as [db ss] eqn:Hsrv'. cbn [sessions] in Hnone.
  split.
  - unfold serve. cbn [collection sessions]. rewrite Hnone.
    destruct r; try discriminate Hr; cbn; rewrite (delete_id _ _ Hnone);
      reflexivity.
  - unfold serve. cbn. rewrite (delete_id _ _ Hnone). reflexivity.
Qed.
End Relogin.

Lemma relogin_takes_new_role_witness :
  let root := SessionUser.mk "R" "r@x.com" "admin" in
  let alice := User.mk 1%N "A" "a@x.com" "ssecret" "user" in
  let areq := mkRequest (Some root) [] "000000000000000000000001" in
  let req := mkRequest None (login_body "a@x.com" "secret") EmptyString in
  session (@post_login sample_platform [alice] req)
    = Some (SessionUser.mk "A" "a@x.com" "user") /\
  session (@post_login sample_platform (users (get_promote [alice] areq)) req)
    = Some (SessionUser.mk "A" "a@x.com" "admin").
Proof.
  intros root alice areq req. split; [reflexivity|].
  apply (@relogin_takes_new_role sample_platform [alice] areq req root
           (mkLoginValue "a@x.com" "secret") alice); reflexivity.
Defined.

Lemma logout_closes_session_witness :
  let alice := SessionUser.mk "A" "a@x.com" "user" in
  let srv := mkServer [User.mk 1%N "A" "a@x.com" "ssecret" "user"]
               {[7%N := alice; 8%N := alice]} in
  let srv' := snd (@serve sample_platform 7%N GET_logout srv) in
  fst (@serve sample_platform 7%N GET_members srv)
    = render 200 "cats" (cats_locals (Some alice) images) /\
  @serve sample_platform 7%N GET_members srv' = (redirect "/login", srv') /\
  sessions srv' !! 8%N = Some alice.
Proof.
  intros alice srv srv'.
  destruct (@logout_closes_session sample_platform 7%N srv GET_members eq_refl)
    as (_ & Hother & Hgate & _).
  split; [reflexivity | split; [exact Hgate|]].
  rewrite Hother by discriminate. reflexivity.
Defined.

(** ** Which answers come from where *)

Section Answers.
Context `{Platform}.

Ltac route_cases su :=
  unfold post_signup, post_login, get_members, get_admin, get_promote,
    get_demote, admin, members, promote, demote, set_role, User.updateOne,
    get_index, get_signup, get_login, get_logout, not_found;
  cbn [guarded]; unfold isAuthenticated, isAdmin; cbn [session_user];
  repeat match goal with
    | |- context [signup_schema ?b] => destruct (signup_schema b)
    | |- context [login_schema ?b] => destruct (login_schema b)
    | |- context [User.findOne ?e ?db] => destruct (User.findOne e db)
    | |- context [bcrypt_compare ?p ?h] => destruct (bcrypt_compare p h)
    | |- context [castObjectId ?s] => destruct (castObjectId s)
    | |- context [User.create ?a ?b ?c ?d ?e ?f] =>
        destruct (User.create a b c d e f)
    end.

(** X17: the redirect to /login is the answer of the routes behind
    [isAuthenticated] to a request without a session, and of nothing else:
    a route answers with it exactly when it is one of /members, /admin,
    /promote/:id and /demote/:id and the request has no session. *)
Theorem login_redirect_iff (r : route) (db : list User.t)
    (su : option SessionUser.t) :
  res (handle r db su) = redirect "/login" <-> gated r = true /\ su = None.
Proof.
  destruct r; cbn [handle gated]; route_cases su;
    destruct su as [u|]; cbn [res];
    try destruct (String.eqb (SessionUser.user_type u) "admin");
    cbn [negb res];
    (split; [intros Hx; first [discriminate Hx | done]
            | intros [Hg Hs]; first [discriminate Hg | discriminate Hs | done]]).
Qed.

(** X18: the 403 page is only ever the answer of /promote/:id and
    /demote/:id to a session whose role is not admin; /admin, which checks
    the role itself, never answers with it, and no route answers 403 to a
    request without a session.  The 404 page is only the answer to an
    unmatched request. *)
Theorem forbidden_and_not_found (r : route) (db : list User.t)
    (su : option SessionUser.t) (status : nat) (view : string) (l : locals) :
  res (handle r db su) = render status view l ->
  (status = 200 \/ status = 403 \/ status = 404) /\
  (status = 403 ->
     (exists id, r = GET_promote id \/ r = GET_demote id) /\
     exists u, su = Some u /\ SessionUser.user_type u <> "admin") /\
  (status = 404 -> r = unmatched).
Proof.
  destruct r; cbn [handle]; route_cases su;
    destruct su as [u|]; cbn [res];
    try destruct (String.eqb_spec (SessionUser.user_type u) "admin");
    cbn [negb res];
    intros Hx; try discriminate Hx; injection Hx as <- _ _;
    (split; [auto|]); (split; [|intros; first [discriminate | done]]);
    intros; try discriminate; (split; [eauto|]); eauto.
Qed.
End Answers.

Lemma forbidden_and_not_found_witness :
  let alice := SessionUser.mk "A" "a@x.com" "user" in
  @handle sample_platform (GET_demote "000000000000000000000001") [] (Some alice)
    = mkOutcome (render 403 "403" no_locals) [] (Some alice) /\
  exists u, Some alice = Some u /\ SessionUser.user_type u <> "admin".
Proof.
  intros alice. split; [reflexivity|].
  destruct (@forbidden_and_not_found sample_platform
              (GET_demote "000000000000000000000001") [] (Some alice)
              403 "403" no_locals eq_refl) as (_ & H403 & _).
  destruct (H403 eq_refl) as (_ & Hu). exact Hu.
Defined.
